(** * MQ-CNN and MQ-RNN estimators: hyper-parameter validation and assembly

    A shallow embedding of [src/gluonts/model/seq2seq/_mq_dnn_estimator.py].

    The two constructors are Python methods with side effects (seeding the
    random generators, building network blocks) that may raise.  They are
    embedded in a small monad [Py] that records the side effects in the order
    in which they happen and ends either in an exception or in a value.

    - integers are [Z], floats are IEEE binary64 values ([PrimFloat.float]),
      an [Optional[...]] argument is an [option];
    - the blocks built by other modules of the library
      ([HierarchicalCausalConv1DEncoder], [RNNEncoder], [ForkingMLPDecoder],
      [QuantileOutput], the base class [ForkingSeq2SeqEstimator]) are records
      of the keyword arguments they are called with;
    - the statistics of [gluonts.dataset.stat] are a parameter of
      [derive_auto_fields]. *)

From Stdlib Require Import ZArith String List Bool Floats Lia DecimalString.
From stdpp Require Import base option gmap strings.
Import ListNotations.

Set Warnings "-inexact-float".

Local Open Scope string_scope.
Local Open Scope Z_scope.

(** ** Python values and primitives *)

(** The exceptions the module can raise.  A failed [assert] raises
    [AssertionError] with the message of the statement: this is the
    configuration error of the estimators. *)
Inductive exception : Type :=
| AssertionError (msg : string)
| IndexError (msg : string)
| NameError (msg : string)
| ImportError (msg : string)
| KeyError (key : string).

(** [str(n)] for an [int]. *)
Definition str_of_int (n : Z) : string :=
  NilZero.string_of_int (Z.to_int n).

(** [str(b)] for a [bool]. *)
Definition str_of_bool (b : bool) : string :=
  if b then "True" else "False".

(** [str(l)] for a list of [int]: [[5, 12]]. *)
Fixpoint join_comma (l : list string) : string :=
  match l with
  | [] => ""
  | [x] => x
  | x :: rest => x ++ ", " ++ join_comma rest
  end.

Definition str_of_int_list (l : list Z) : string :=
  "[" ++ join_comma (map str_of_int l) ++ "]".

(** [len(l)]. *)
Definition len {A : Type} (l : list A) : Z := Z.of_nat (length l).

(** [all(p(d) for d in l)]. *)
Definition all {A : Type} (p : A -> bool) (l : list A) : bool := forallb p l.

(** Truth value of an [Optional[int]] in a condition: [None] and [0] are
    false, every other integer is true. *)
Definition truthy (o : option Z) : bool :=
  match o with
  | None => false
  | Some n => negb (n =? 0)
  end.

(** Truth value of a list: false exactly for the empty list. *)
Definition bool_of_list {A : Type} (l : list A) : bool :=
  match l with
  | [] => false
  | _ :: _ => true
  end.

(** [x if x is not None else d]. *)
Definition if_not_None {A : Type} (x : option A) (d : A) : A :=
  match x with
  | Some v => v
  | None => d
  end.

(** [x is None or p(x)]. *)
Definition is_None_or {A : Type} (x : option A) (p : A -> bool) : bool :=
  match x with
  | None => true
  | Some v => p v
  end.

(** [l[:-1]]: everything but the last element; empty for the empty list. *)
Definition slice_to_last {A : Type} (l : list A) : list A := removelast l.

(** ** Blocks built by other modules *)

(** Modelled from the spec: the encoder, decoder and quantile-output classes
    live in [gluonts.mx.block] and are not part of this file; the spec
    treats each as an opaque handle whose builder runs no computation.  Each
    is the record of the keyword arguments of its call. *)
Module HierarchicalCausalConv1DEncoder.
Record t : Type := {
  dilation_seq : list Z;
  kernel_size_seq : list Z;
  channels_seq : list Z;
  use_residual : bool;
  use_static_feat : bool;
  use_dynamic_feat : bool;
  prefix : string
}.
End HierarchicalCausalConv1DEncoder.

Module RNNEncoder.
Record t : Type := {
  mode : string;
  hidden_size : Z;
  num_layers : Z;
  bidirectional : bool;
  prefix : string;
  use_static_feat : bool;
  use_dynamic_feat : bool
}.
End RNNEncoder.

Inductive Seq2SeqEncoder : Type :=
| CNN_encoder (e : HierarchicalCausalConv1DEncoder.t)
| RNN_encoder (e : RNNEncoder.t).

Module ForkingMLPDecoder.
Record t : Type := {
  dec_len : Z;
  final_dim : Z;
  hidden_dimension_sequence : list Z;
  prefix : string
}.
End ForkingMLPDecoder.

Module QuantileOutput.
Record t : Type := {
  quantiles : list float
}.
End QuantileOutput.

(** [Trainer] and the distribution outputs are classes of other modules; the
  constructors only store them or hand them on. *)
Inductive Trainer : Type :=
| Trainer_default
| Trainer_with (hyperparameters : list (string * string)).

Inductive DistributionOutput : Type :=
| GaussianOutput
| OtherOutput (cls : string).

(** Modelled from the spec: the base class [ForkingSeq2SeqEstimator] is in
  [_forking_estimator.py], not in this file; it receives the three handles
  and the shared fields as one bundle.  A keyword the caller does not pass
  is [None] here. *)
Module ForkingSeq2SeqEstimator.
Record t : Type := {
  encoder : Seq2SeqEncoder;
  decoder : ForkingMLPDecoder.t;
  quantile_output : QuantileOutput.t;
  freq : string;
  prediction_length : Z;
  context_length : option Z;
  use_feat_dynamic_real : option bool;
  use_feat_static_cat : option bool;
  enable_decoder_dynamic_feature : option bool;
  cardinality : option (option (list Z));
  embedding_dimension : option (option (list Z));
  add_time_feature : option bool;
  add_age_feature : option bool;
  trainer : Trainer;
  scaling : bool
}.
End ForkingSeq2SeqEstimator.

(** Modelled from the spec: the statistics of a data set are computed by
    [gluonts.dataset.stat], not by this file.  Of the record it returns the
    estimator reads the number of dynamic real features and, for each static
    categorical feature, the set of distinct values seen. *)
Module DatasetStatistics.
Record t : Type := {
  num_feat_dynamic_real : Z;
  feat_static_cat : list (gset Z)
}.
End DatasetStatistics.

(** ** Side effects and the [Py] monad *)

Inductive component : Type :=
| Encoder (e : Seq2SeqEncoder)
| Decoder (d : ForkingMLPDecoder.t)
| Quantiles (q : QuantileOutput.t).

(** What a call can do to the process, besides returning. *)
Inductive effect : Type :=
| np_random_seed (seed : Z)
| mx_random_seed (seed : Z)
| build (c : component)
| logger_info (record : string).

(** A computation performs effects, in order, and then raises or returns. *)
Definition Py (A : Type) : Type := (list effect * (exception + A))%type.

Definition ret {A : Type} (a : A) : Py A := ([], inr a).

Definition raise {A : Type} (e : exception) : Py A := ([], inl e).

Definition perform (ef : effect) : Py unit := ([ef], inr tt).

Definition bind {A B : Type} (m : Py A) (k : A -> Py B) : Py B :=
  match m with
  | (t1, inl e) => (t1, inl e)
  | (t1, inr a) =>
      match k a with
      | (t2, r) => ((t1 ++ t2)%list, r)
      end
  end.

Declare Scope py_scope.
Delimit Scope py_scope with py.
Notation "x <- m ;; k" := (bind m (fun x => k))
  (at level 100, m at next level, k at level 200, right associativity)
  : py_scope.
Notation "m ;; k" := (bind m (fun _ => k))
  (at level 100, k at level 200, right associativity) : py_scope.
Local Open Scope py_scope.

(** [assert cond, msg]. *)
Definition assert (cond : bool) (msg : string) : Py unit :=
  if cond then ret tt else raise (AssertionError msg).

(** [if o: body], where [o] is an [Optional[int]] that [body] reads as an
    integer. *)
Definition when_truthy (o : option Z) (body : Z -> Py unit) : Py unit :=
  match o with
  | Some n => if truthy (Some n) then body n else ret tt
  | None => ret tt
  end.

(** [l[-1]]. *)
Definition last_item (l : list Z) : Py Z :=
  match l with
  | [] => raise (IndexError "list index out of range")
  | x :: rest => ret (List.last rest x)
  end.

(** The trace of a computation and its outcome. *)
Definition effects {A : Type} (m : Py A) : list effect := fst m.
Definition outcome {A : Type} (m : Py A) : exception + A := snd m.

(** The process-wide random state: the seed last given to each generator
    ([None]: whatever state the generator was in before). *)
Record random_state : Type := {
  np_random : option Z;
  mx_random : option Z
}.

Definition apply_effect (st : random_state) (ef : effect) : random_state :=
  match ef with
  | np_random_seed s => {| np_random := Some s; mx_random := mx_random st |}
  | mx_random_seed s => {| np_random := np_random st; mx_random := Some s |}
  | build _ => st
  | logger_info _ => st
  end.

Definition apply_effects (st : random_state) (t : list effect) : random_state :=
  fold_left apply_effect t st.

Definition is_build (ef : effect) : bool :=
  match ef with
  | build _ => true
  | _ => false
  end.

Definition is_seed (ef : effect) : bool :=
  match ef with
  | np_random_seed _ | mx_random_seed _ => true
  | _ => false
  end.

(** ** The estimators *)

(** The default quantiles: the nine deciles, as float literals. *)
Definition deciles : list float :=
  [0.1; 0.2; 0.3; 0.4; 0.5; 0.6; 0.7; 0.8; 0.9]%float.

(** [0 <= d <= 1] on floats. *)
Definition in_unit_interval (d : float) : bool :=
  (PrimFloat.leb 0 d && PrimFloat.leb d 1)%bool.

Module MQCNNEstimator.

(** The arguments of the constructor, after binding. *)
Record kwargs : Type := {
  freq : string;
  prediction_length : Z;
  sampling : bool;
  distr_output : DistributionOutput;
  context_length : option Z;
  use_feat_dynamic_real : bool;
  use_feat_static_cat : bool;
  cardinality : option (list Z);
  embedding_dimension : option (list Z);
  add_time_feature : bool;
  add_age_feature : bool;
  enable_decoder_dynamic_feature : bool;
  seed : option Z;
  decoder_mlp_dim_seq : option (list Z);
  channels_seq : option (list Z);
  dilation_seq : option (list Z);
  kernel_size_seq : option (list Z);
  use_residual : bool;
  quantiles : option (list float);
  trainer : Trainer;
  scaling : bool
}.

(** The call [MQCNNEstimator(freq=f, prediction_length=p)]: every other
    parameter takes the default of the signature. *)
Definition defaults (f : string) (p : Z) : kwargs := {|
  freq := f;
  prediction_length := p;
  sampling := true;
  distr_output := GaussianOutput;
  context_length := None;
  use_feat_dynamic_real := false;
  use_feat_static_cat := false;
  cardinality := None;
  embedding_dimension := None;
  add_time_feature := false;
  add_age_feature := false;
  enable_decoder_dynamic_feature := false;
  seed := None;
  decoder_mlp_dim_seq := None;
  channels_seq := None;
  dilation_seq := None;
  kernel_size_seq := None;
  use_residual := true;
  quantiles := None;
  trainer := Trainer_default;
  scaling := false
|}.

(** The estimator object: the attributes [__init__] sets on [self], and the
    part initialised by the base class. *)
Record t : Type := {
  self_decoder_mlp_dim_seq : list Z;
  self_channels_seq : list Z;
  self_dilation_seq : list Z;
  self_kernel_size_seq : list Z;
  self_quantiles : list float;
  self_sampling : bool;
  self_distr_output : DistributionOutput;
  super : ForkingSeq2SeqEstimator.t
}.

Definition __init__ (a : kwargs) : Py t :=
  assert (0 <? prediction_length a)
    ("Invalid prediction length: " ++ str_of_int (prediction_length a) ++ ".") ;;
  assert (is_None_or (decoder_mlp_dim_seq a) (all (fun d => 0 <? d)))
    "Elements of `mlp_hidden_dimension_seq` should be > 0" ;;
  assert (is_None_or (channels_seq a) (all (fun d => 0 <? d)))
    "Elements of `channels_seq` should be > 0" ;;
  assert (is_None_or (dilation_seq a) (all (fun d => 0 <? d)))
    "Elements of `dilation_seq` should be > 0" ;;
  assert (is_None_or (kernel_size_seq a) (all (fun d => 1 <? d)))
    "Elements of `kernel_size_seq` should be > 0" ;;
  assert (is_None_or (quantiles a) (all in_unit_interval))
    "Elements of `quantiles` should be >= 0 and <= 1" ;;
  let self_decoder_mlp_dim_seq := if_not_None (decoder_mlp_dim_seq a) [30] in
  let self_channels_seq := if_not_None (channels_seq a) [30; 30; 30] in
  let self_dilation_seq := if_not_None (dilation_seq a) [1; 3; 5] in
  let self_kernel_size_seq := if_not_None (kernel_size_seq a) [7; 3; 3] in
  let self_quantiles := if_not_None (quantiles a) deciles in
  assert ((len self_channels_seq =? len self_dilation_seq)
          && (len self_dilation_seq =? len self_kernel_size_seq))
    ("mismatch CNN configurations: " ++ str_of_int (len self_channels_seq)
     ++ " vs. " ++ str_of_int (len self_dilation_seq)
     ++ " vs. " ++ str_of_int (len self_kernel_size_seq)) ;;
  when_truthy (seed a) (fun seed =>
    perform (np_random_seed seed) ;;
    perform (mx_random_seed seed)) ;;
  let encoder := CNN_encoder {|
    HierarchicalCausalConv1DEncoder.dilation_seq := self_dilation_seq;
    HierarchicalCausalConv1DEncoder.kernel_size_seq := self_kernel_size_seq;
    HierarchicalCausalConv1DEncoder.channels_seq := self_channels_seq;
    HierarchicalCausalConv1DEncoder.use_residual := use_residual a;
    HierarchicalCausalConv1DEncoder.use_static_feat := true;
    HierarchicalCausalConv1DEncoder.use_dynamic_feat := true;
    HierarchicalCausalConv1DEncoder.prefix := "encoder_" |} in
  perform (build (Encoder encoder)) ;;
  final_dim <- last_item self_decoder_mlp_dim_seq ;;
  let decoder := {|
    ForkingMLPDecoder.dec_len := prediction_length a;
    ForkingMLPDecoder.final_dim := final_dim;
    ForkingMLPDecoder.hidden_dimension_sequence :=
      slice_to_last self_decoder_mlp_dim_seq;
    ForkingMLPDecoder.prefix := "decoder_" |} in
  perform (build (Decoder decoder)) ;;
  let quantile_output := {| QuantileOutput.quantiles := self_quantiles |} in
  perform (build (Quantiles quantile_output)) ;;
  ret {|
    self_decoder_mlp_dim_seq := self_decoder_mlp_dim_seq;
    self_channels_seq := self_channels_seq;
    self_dilation_seq := self_dilation_seq;
    self_kernel_size_seq := self_kernel_size_seq;
    self_quantiles := self_quantiles;
    self_sampling := sampling a;
    self_distr_output := distr_output a;
    super := {|
      ForkingSeq2SeqEstimator.encoder := encoder;
      ForkingSeq2SeqEstimator.decoder := decoder;
      ForkingSeq2SeqEstimator.quantile_output := quantile_output;
      ForkingSeq2SeqEstimator.freq := freq a;
      ForkingSeq2SeqEstimator.prediction_length := prediction_length a;
      ForkingSeq2SeqEstimator.context_length := context_length a;
      ForkingSeq2SeqEstimator.use_feat_dynamic_real :=
        Some (use_feat_dynamic_real a);
      ForkingSeq2SeqEstimator.use_feat_static_cat :=
        Some (use_feat_static_cat a);
      ForkingSeq2SeqEstimator.enable_decoder_dynamic_feature :=
        Some (enable_decoder_dynamic_feature a);
      ForkingSeq2SeqEstimator.cardinality := Some (cardinality a);
      ForkingSeq2SeqEstimator.embedding_dimension :=
        Some (embedding_dimension a);
      ForkingSeq2SeqEstimator.add_time_feature := Some (add_time_feature a);
      ForkingSeq2SeqEstimator.add_age_feature := Some (add_age_feature a);
      ForkingSeq2SeqEstimator.trainer := trainer a;
      ForkingSeq2SeqEstimator.scaling := scaling a |}
  |}.

(** The dictionary [derive_auto_fields] returns holds booleans and a list
    of integers. *)
Inductive value : Type :=
| VBool (b : bool)
| VList (l : list Z).

Definition str_of_value (v : value) : string :=
  match v with
  | VBool b => str_of_bool b
  | VList l => str_of_int_list l
  end.

(** [d[k]]. *)
Definition getitem (d : gmap string value) (k : string) : Py value :=
  match d !! k with
  | Some v => ret v
  | None => raise (KeyError k)
  end.

Section derive_auto_fields.

(** [calculate_dataset_statistics] is a function of [gluonts.dataset.stat]:
    whatever it does on the training data (it may log, and it may raise), it
    hands back the statistics read below. *)
Context {Dataset : Type}.
Variable calculate_dataset_statistics : Dataset -> Py DatasetStatistics.t.

Definition derive_auto_fields (train_iter : Dataset)
  : Py (gmap string value) :=
  stats <- calculate_dataset_statistics train_iter ;;
  let auto_fields : gmap string value :=
    <["cardinality" :=
        VList (map (fun cats : gset Z => Z.of_nat (size cats))
                   (DatasetStatistics.feat_static_cat stats))]>
    (<["use_feat_static_cat" :=
        VBool (bool_of_list (DatasetStatistics.feat_static_cat stats))]>
    (<["use_feat_dynamic_real" :=
        VBool (0 <? DatasetStatistics.num_feat_dynamic_real stats)]> ∅)) in
  dynamic_real <- getitem auto_fields "use_feat_dynamic_real" ;;
  static_cat <- getitem auto_fields "use_feat_static_cat" ;;
  card <- getitem auto_fields "cardinality" ;;
  perform (logger_info
    ("gluonts[from_inputs]: use_feat_dynamic_real set to '"
     ++ str_of_value dynamic_real
     ++ "', and use use_feat_static_cat to '"
     ++ str_of_value static_cat
     ++ "' with cardinality of '" ++ str_of_value card ++ "'")) ;;
  ret auto_fields.

End derive_auto_fields.

End MQCNNEstimator.

Module MQRNNEstimator.

Record kwargs : Type := {
  prediction_length : Z;
  freq : string;
  context_length : option Z;
  decoder_mlp_dim_seq : option (list Z);
  trainer : Trainer;
  quantiles : option (list float);
  scaling : bool
}.

(** The call [MQRNNEstimator(prediction_length=p, freq=f)]. *)
Definition defaults (p : Z) (f : string) : kwargs := {|
  prediction_length := p;
  freq := f;
  context_length := None;
  decoder_mlp_dim_seq := None;
  trainer := Trainer_default;
  quantiles := None;
  scaling := true
|}.

Record t : Type := {
  self_decoder_mlp_dim_seq : list Z;
  self_quantiles : list float;
  super : ForkingSeq2SeqEstimator.t
}.

Definition __init__ (a : kwargs) : Py t :=
  assert (0 <? prediction_length a)
    ("Invalid prediction length: " ++ str_of_int (prediction_length a) ++ ".") ;;
  assert (is_None_or (decoder_mlp_dim_seq a) (all (fun d => 0 <? d)))
    "Elements of `mlp_hidden_dimension_seq` should be > 0" ;;
  assert (is_None_or (quantiles a) (all in_unit_interval))
    "Elements of `quantiles` should be >= 0 and <= 1" ;;
  let self_decoder_mlp_dim_seq := if_not_None (decoder_mlp_dim_seq a) [30] in
  let self_quantiles := if_not_None (quantiles a) deciles in
  let encoder := RNN_encoder {|
    RNNEncoder.mode := "gru";
    RNNEncoder.hidden_size := 50;
    RNNEncoder.num_layers := 1;
    RNNEncoder.bidirectional := true;
    RNNEncoder.prefix := "encoder_";
    RNNEncoder.use_static_feat := true;
    RNNEncoder.use_dynamic_feat := true |} in
  perform (build (Encoder encoder)) ;;
  final_dim <- last_item self_decoder_mlp_dim_seq ;;
  let decoder := {|
    ForkingMLPDecoder.dec_len := prediction_length a;
    ForkingMLPDecoder.final_dim := final_dim;
    ForkingMLPDecoder.hidden_dimension_sequence :=
      slice_to_last self_decoder_mlp_dim_seq;
    ForkingMLPDecoder.prefix := "decoder_" |} in
  perform (build (Decoder decoder)) ;;
  let quantile_output := {| QuantileOutput.quantiles := self_quantiles |} in
  perform (build (Quantiles quantile_output)) ;;
  ret {|
    self_decoder_mlp_dim_seq := self_decoder_mlp_dim_seq;
    self_quantiles := self_quantiles;
    super := {|
      ForkingSeq2SeqEstimator.encoder := encoder;
      ForkingSeq2SeqEstimator.decoder := decoder;
      ForkingSeq2SeqEstimator.quantile_output := quantile_output;
      ForkingSeq2SeqEstimator.freq := freq a;
      ForkingSeq2SeqEstimator.prediction_length := prediction_length a;
      ForkingSeq2SeqEstimator.context_length := context_length a;
      ForkingSeq2SeqEstimator.use_feat_dynamic_real := None;
      ForkingSeq2SeqEstimator.use_feat_static_cat := None;
      ForkingSeq2SeqEstimator.enable_decoder_dynamic_feature := None;
      ForkingSeq2SeqEstimator.cardinality := None;
      ForkingSeq2SeqEstimator.embedding_dimension := None;
      ForkingSeq2SeqEstimator.add_time_feature := None;
      ForkingSeq2SeqEstimator.add_age_feature := None;
      ForkingSeq2SeqEstimator.trainer := trainer a;
      ForkingSeq2SeqEstimator.scaling := scaling a |}
  |}.

End MQRNNEstimator.

(** ** Loading the module

    Python runs the statements of a module when the module is imported.  A
    [def] statement evaluates, at that moment, its decorators, then the
    default values of its parameters in order, then its annotations; a name
    among them that is bound nowhere raises [NameError].  The bodies of the
    functions are not run.  Of each statement the model keeps the names it
    binds and the names it looks up. *)

Record funcdef : Type := {
  def_name : string;
  def_decorators : list string;
  def_defaults : list string;
  def_annotations : list string
}.

Inductive stmt : Type :=
| Import (names : list string)
| ClassDef (name : string) (bases : list string) (body : list funcdef).

(** The built-in names the module refers to (none of the built-ins of Python
    is called [DistributionOutput] or [GaussianOutput]). *)
Definition builtins : list string :=
  ["str"; "int"; "bool"; "float"; "classmethod"; "len"; "all"].

Definition bound (ns : list string) (n : string) : bool :=
  existsb (String.eqb n) ns.

(** Looking up the names [l] in order, in the name space [ns]. *)
Fixpoint lookup_names (ns : list string) (l : list string)
  : exception + unit :=
  match l with
  | [] => inr tt
  | n :: rest =>
      if bound ns n || bound builtins n
      then lookup_names ns rest
      else inl (NameError ("name '" ++ n ++ "' is not defined"))
  end.

Definition exec_def (ns : list string) (fd : funcdef) : exception + unit :=
  lookup_names ns (def_decorators fd ++ def_defaults fd ++ def_annotations fd).

(** The body of a class: each [def] sees the names of the class defined so
    far and the names of the module. *)
Fixpoint exec_class_body (globals locals : list string) (body : list funcdef)
  : exception + unit :=
  match body with
  | [] => inr tt
  | fd :: rest =>
      match exec_def (locals ++ globals) fd with
      | inl e => inl e
      | inr _ => exec_class_body globals (def_name fd :: locals) rest
      end
  end.

Definition exec_stmt (globals : list string) (st : stmt)
  : exception + list string :=
  match st with
  | Import names => inr (names ++ globals)%list
  | ClassDef name bases body =>
      match lookup_names globals bases with
      | inl e => inl e
      | inr _ =>
          match exec_class_body globals [] body with
          | inl e => inl e
          | inr _ => inr (name :: globals)
          end
      end
  end.

Fixpoint exec_module (globals : list string) (body : list stmt)
  : exception + list string :=
  match body with
  | [] => inr globals
  | st :: rest =>
      match exec_stmt globals st with
      | inl e => inl e
      | inr globals' => exec_module globals' rest
      end
  end.

(** The names a statement binds when it succeeds. *)
Definition binds (st : stmt) : list string :=
  match st with
  | Import names => names
  | ClassDef name _ _ => [name]
  end.

(** The import statements of the file, lines 14 to 37. *)
Definition module_imports : list stmt := [
  Import ["logging"];
  Import ["multiprocessing"];
  Import ["List"; "Optional"];
  Import ["mx"];
  Import ["np"];
  Import ["validated"];
  Import ["Dataset"; "ListDataset"];
  Import ["calculate_dataset_statistics"];
  Import ["ForkingSeq2SeqEstimator"];
  Import ["ForkingMLPDecoder"];
  Import ["HierarchicalCausalConv1DEncoder"; "RNNEncoder"];
  Import ["QuantileOutput"];
  Import ["Trainer"]
].

(** The signature of [MQCNNEstimator.__init__], lines 105 to 129. *)
Definition MQCNNEstimator_init_def : funcdef := {|
  def_name := "__init__";
  def_decorators := ["validated"];
  def_defaults := ["GaussianOutput"; "Trainer"];
  def_annotations :=
    ["str"; "int"; "bool"; "DistributionOutput"; "Optional"; "int"; "bool";
     "bool"; "List"; "int"; "List"; "int"; "bool"; "bool"; "bool";
     "Optional"; "int"; "Optional"; "List"; "int"; "Optional"; "List"; "int";
     "Optional"; "List"; "int"; "Optional"; "List"; "int"; "bool";
     "Optional"; "List"; "float"; "Trainer"; "bool"]
|}.

Definition derive_auto_fields_def : funcdef := {|
  def_name := "derive_auto_fields";
  def_decorators := ["classmethod"];
  def_defaults := [];
  def_annotations := []
|}.

(** The signature of [MQRNNEstimator.__init__], lines 249 to 259. *)
Definition MQRNNEstimator_init_def : funcdef := {|
  def_name := "__init__";
  def_decorators := ["validated"];
  def_defaults := ["Trainer"];
  def_annotations :=
    ["int"; "str"; "Optional"; "int"; "List"; "int"; "Trainer"; "List";
     "float"; "bool"]
|}.

Definition module_classes : list stmt := [
  ClassDef "MQCNNEstimator" ["ForkingSeq2SeqEstimator"]
    [MQCNNEstimator_init_def; derive_auto_fields_def];
  ClassDef "MQRNNEstimator" ["ForkingSeq2SeqEstimator"]
    [MQRNNEstimator_init_def]
].

Definition module_body : list stmt := (module_imports ++ module_classes)%list.

(** Importing the module: its statements run in an empty name space. *)
Definition import_module : exception + list string :=
  exec_module [] module_body.

(** What a caller does to obtain an estimator:
    [from gluonts.model.seq2seq._mq_dnn_estimator import MQCNNEstimator]
    and then [MQCNNEstimator(...)]. *)
Definition construct_MQCNNEstimator (a : MQCNNEstimator.kwargs)
  : Py MQCNNEstimator.t :=
  match import_module with
  | inl e => raise e
  | inr globals =>
      if bound globals "MQCNNEstimator"
      then MQCNNEstimator.__init__ a
      else raise (ImportError "cannot import name 'MQCNNEstimator'")
  end.

(** ** Calls with some keywords given

    [with_*] is a call that passes one more keyword than [a] does. *)

Definition with_seed (a : MQCNNEstimator.kwargs) (s : option Z)
  : MQCNNEstimator.kwargs :=
  let 'MQCNNEstimator.Build_kwargs f p sa d c dr sc ca e t ag de _ m ch di k r q tr scl := a in
  MQCNNEstimator.Build_kwargs f p sa d c dr sc ca e t ag de s m ch di k r q tr scl.

Definition with_decoder_mlp_dim_seq (a : MQCNNEstimator.kwargs)
  (m : option (list Z)) : MQCNNEstimator.kwargs :=
  let 'MQCNNEstimator.Build_kwargs f p sa d c dr sc ca e t ag de s _ ch di k r q tr scl := a in
  MQCNNEstimator.Build_kwargs f p sa d c dr sc ca e t ag de s m ch di k r q tr scl.

Definition with_channels_seq (a : MQCNNEstimator.kwargs)
  (ch : option (list Z)) : MQCNNEstimator.kwargs :=
  let 'MQCNNEstimator.Build_kwargs f p sa d c dr sc ca e t ag de s m _ di k r q tr scl := a in
  MQCNNEstimator.Build_kwargs f p sa d c dr sc ca e t ag de s m ch di k r q tr scl.

Definition with_dilation_seq (a : MQCNNEstimator.kwargs)
  (di : option (list Z)) : MQCNNEstimator.kwargs :=
  let 'MQCNNEstimator.Build_kwargs f p sa d c dr sc ca e t ag de s m ch _ k r q tr scl := a in
  MQCNNEstimator.Build_kwargs f p sa d c dr sc ca e t ag de s m ch di k r q tr scl.

Definition with_kernel_size_seq (a : MQCNNEstimator.kwargs)
  (k : option (list Z)) : MQCNNEstimator.kwargs :=
  let 'MQCNNEstimator.Build_kwargs f p sa d c dr sc ca e t ag de s m ch di _ r q tr scl := a in
  MQCNNEstimator.Build_kwargs f p sa d c dr sc ca e t ag de s m ch di k r q tr scl.

Definition with_quantiles (a : MQCNNEstimator.kwargs)
  (q : option (list float)) : MQCNNEstimator.kwargs :=
  let 'MQCNNEstimator.Build_kwargs f p sa d c dr sc ca e t ag de s m ch di k r _ tr scl := a in
  MQCNNEstimator.Build_kwargs f p sa d c dr sc ca e t ag de s m ch di k r q tr scl.

Definition rnn_with_decoder_mlp_dim_seq (a : MQRNNEstimator.kwargs)
  (m : option (list Z)) : MQRNNEstimator.kwargs :=
  let 'MQRNNEstimator.Build_kwargs p f c _ tr q scl := a in
  MQRNNEstimator.Build_kwargs p f c m tr q scl.

Definition rnn_with_quantiles (a : MQRNNEstimator.kwargs)
  (q : option (list float)) : MQRNNEstimator.kwargs :=
  let 'MQRNNEstimator.Build_kwargs p f c m tr _ scl := a in
  MQRNNEstimator.Build_kwargs p f c m tr q scl.

(** The encoder, decoder and quantile output of an estimator built with the
    default sequences. *)
Definition default_cnn_encoder : Seq2SeqEncoder :=
  CNN_encoder {|
    HierarchicalCausalConv1DEncoder.dilation_seq := [1; 3; 5];
    HierarchicalCausalConv1DEncoder.kernel_size_seq := [7; 3; 3];
    HierarchicalCausalConv1DEncoder.channels_seq := [30; 30; 30];
    HierarchicalCausalConv1DEncoder.use_residual := true;
    HierarchicalCausalConv1DEncoder.use_static_feat := true;
    HierarchicalCausalConv1DEncoder.use_dynamic_feat := true;
    HierarchicalCausalConv1DEncoder.prefix := "encoder_" |}.

Definition the_rnn_encoder : Seq2SeqEncoder :=
  RNN_encoder {|
    RNNEncoder.mode := "gru";
    RNNEncoder.hidden_size := 50;
    RNNEncoder.num_layers := 1;
    RNNEncoder.bidirectional := true;
    RNNEncoder.prefix := "encoder_";
    RNNEncoder.use_static_feat := true;
    RNNEncoder.use_dynamic_feat := true |}.

(** Whether a message names a field. *)
Definition mentions (field msg : string) : bool :=
  match String.index 0 field msg with
  | Some _ => true
  | None => false
  end.

(** A computation that ends in a value. *)
Definition succeeds {A : Type} (m : Py A) : Prop :=
  exists a, outcome m = inr a.

(** A computation that ends in a failed assertion. *)
Definition fails_validation {A : Type} (m : Py A) : Prop :=
  exists msg, outcome m = inl (AssertionError msg).

(** The call [MQCNNEstimator(freq=f, prediction_length=p, channels_seq=c,
    dilation_seq=d, kernel_size_seq=k)]. *)
Definition cnn_call (f : string) (p : Z) (c d k : list Z)
  : MQCNNEstimator.kwargs :=
  with_kernel_size_seq
    (with_dilation_seq
       (with_channels_seq (MQCNNEstimator.defaults f p) (Some c)) (Some d))
    (Some k).

(** Statistics of a data set without dynamic real features and with two
    static categorical features, of 5 and of 12 distinct values. *)
Definition example_statistics : DatasetStatistics.t := {|
  DatasetStatistics.num_feat_dynamic_real := 0;
  DatasetStatistics.feat_static_cat :=
    [ list_to_set [0; 1; 2; 3; 4];
      list_to_set [0; 1; 2; 3; 4; 5; 6; 7; 8; 9; 10; 11] ]
|}.

(** The seeding calls a constructor makes for a given [seed] argument. *)
Definition seed_effects (s : option Z) : list effect :=
  match s with
  | Some n => if n =? 0 then [] else [np_random_seed n; mx_random_seed n]
  | None => []
  end.

(** The conjunction of the conditions asserted by [MQCNNEstimator.__init__],
    in the order of the statements. *)
Definition cnn_checks (a : MQCNNEstimator.kwargs) : bool :=
  (0 <? MQCNNEstimator.prediction_length a)
  && is_None_or (MQCNNEstimator.decoder_mlp_dim_seq a) (all (fun d => 0 <? d))
  && is_None_or (MQCNNEstimator.channels_seq a) (all (fun d => 0 <? d))
  && is_None_or (MQCNNEstimator.dilation_seq a) (all (fun d => 0 <? d))
  && is_None_or (MQCNNEstimator.kernel_size_seq a) (all (fun d => 1 <? d))
  && is_None_or (MQCNNEstimator.quantiles a) (all in_unit_interval)
  && ((len (if_not_None (MQCNNEstimator.channels_seq a) [30; 30; 30])
       =? len (if_not_None (MQCNNEstimator.dilation_seq a) [1; 3; 5]))
      && (len (if_not_None (MQCNNEstimator.dilation_seq a) [1; 3; 5])
          =? len (if_not_None (MQCNNEstimator.kernel_size_seq a) [7; 3; 3]))).

(** The same for [MQRNNEstimator.__init__]. *)
Definition rnn_checks (a : MQRNNEstimator.kwargs) : bool :=
  (0 <? MQRNNEstimator.prediction_length a)
  && is_None_or (MQRNNEstimator.decoder_mlp_dim_seq a) (all (fun d => 0 <? d))
  && is_None_or (MQRNNEstimator.quantiles a) (all in_unit_interval).

(** * Properties *)

(** ** The monad *)

Lemma bind_ret_l {A B : Type} (a : A) (k : A -> Py B) :
  bind (ret a) k = k a.
Proof. unfold bind, ret. destruct (k a) as [t r]. reflexivity. Qed.

Lemma bind_assert_true {B : Type} (b : bool) (msg : string) (k : unit -> Py B) :
  b = true -> bind (assert b msg) k = k tt.
Proof. intros ->. apply bind_ret_l. Qed.

Lemma bind_assert_false {B : Type} (b : bool) (msg : string)
  (k : unit -> Py B) :
  b = false -> bind (assert b msg) k = ([], inl (AssertionError msg)).
Proof. intros ->. reflexivity. Qed.

Lemma bind_perform {B : Type} (ef : effect) (k : unit -> Py B) :
  bind (perform ef) k = (ef :: effects (k tt), outcome (k tt)).
Proof. unfold bind, perform. destruct (k tt) as [t r]. reflexivity. Qed.

(** ** Lists of integers *)

Lemma all_Forall {A : Type} (p : A -> bool) (l : list A) :
  all p l = true <-> Forall (fun x => p x = true) l.
Proof.
  unfold all. induction l as [|x l IH]; simpl.
  - split; [constructor | reflexivity].
  - rewrite andb_true_iff, IH. split.
    + intros [Hx Hl]. constructor; assumption.
    + intros H. inversion H; subst. split; assumption.
Qed.

Lemma all_false_of_In {A : Type} (p : A -> bool) (l : list A) (x : A) :
  In x l -> p x = false -> all p l = false.
Proof.
  intros Hin Hx. destruct (all p l) eqn:E; [|reflexivity].
  apply all_Forall in E. rewrite Forall_forall in E.
  rewrite (E x) in Hx; [discriminate|]. apply list_elem_of_In, Hin.
Qed.

Lemma all_gt_of_Forall (b : Z) (l : list Z) :
  Forall (fun d => b < d) l -> all (fun d => b <? d) l = true.
Proof.
  intros H. apply all_Forall. eapply Forall_impl; [exact H|].
  intros d Hd. apply Z.ltb_lt, Hd.
Qed.

Lemma len_eqb {A B : Type} (l1 : list A) (l2 : list B) :
  (len l1 =? len l2) = true <-> length l1 = length l2.
Proof. unfold len. rewrite Z.eqb_eq. lia. Qed.

(** ** Comparisons of floats *)

Lemma compare_cont_Eq_swap (p q : positive) :
  PosDef.Pos.compare_cont Eq q p = CompOpp (PosDef.Pos.compare_cont Eq p q).
Proof.
  change (PosDef.Pos.compare_cont Eq q p) with (Pos.compare q p).
  change (PosDef.Pos.compare_cont Eq p q) with (Pos.compare p q).
  apply Pos.compare_antisym.
Qed.

Lemma SFcompare_Lt_swap (x y : spec_float) :
  SFcompare x y = Some Lt -> SFcompare y x = Some Gt.
Proof.
  destruct x as [sx|sx| |sx mx ex], y as [sy|sy| |sy my ey]; simpl;
    try discriminate;
    try (destruct sx; try destruct sy; simpl; intros; congruence);
    try (destruct sy; simpl; intros; congruence).
  destruct sx, sy; simpl; try (intros; congruence);
    rewrite (Z.compare_antisym ex ey), (compare_cont_Eq_swap mx my);
    destruct (ex ?= ey)%Z; simpl; try (intros; congruence);
    destruct (PosDef.Pos.compare_cont Eq mx my); simpl; intros; congruence.
Qed.

(** [x < y] excludes [y <= x], also for infinities (and a NaN is below
    nothing). *)
Lemma ltb_not_leb (x y : float) :
  PrimFloat.ltb x y = true -> PrimFloat.leb y x = false.
Proof.
  rewrite ltb_spec, leb_spec. unfold SFltb, SFleb.
  destruct (SFcompare (Prim2SF x) (Prim2SF y)) as [[| |]|] eqn:E;
    try discriminate.
  intros _. rewrite (SFcompare_Lt_swap _ _ E). reflexivity.
Qed.

Lemma outside_unit_interval (d : float) :
  PrimFloat.ltb d 0 = true \/ PrimFloat.ltb 1 d = true ->
  in_unit_interval d = false.
Proof.
  unfold in_unit_interval. intros [H | H].
  - rewrite (ltb_not_leb _ _ H). reflexivity.
  - rewrite (ltb_not_leb _ _ H). apply andb_false_r.
Qed.

(** ** Stepping through the constructors *)

Ltac pass_assert tac :=
  rewrite bind_assert_true by tac.

Lemma cnn_init_nonpositive_prediction_length (a : MQCNNEstimator.kwargs) :
  MQCNNEstimator.prediction_length a <= 0 ->
  MQCNNEstimator.__init__ a =
    ([], inl (AssertionError
                ("Invalid prediction length: "
                 ++ str_of_int (MQCNNEstimator.prediction_length a) ++ "."))).
Proof.
  intros H. unfold MQCNNEstimator.__init__.
  apply bind_assert_false. apply Z.ltb_ge. exact H.
Qed.

Lemma rnn_init_nonpositive_prediction_length (a : MQRNNEstimator.kwargs) :
  MQRNNEstimator.prediction_length a <= 0 ->
  MQRNNEstimator.__init__ a =
    ([], inl (AssertionError
                ("Invalid prediction length: "
                 ++ str_of_int (MQRNNEstimator.prediction_length a) ++ "."))).
Proof.
  intros H. unfold MQRNNEstimator.__init__.
  apply bind_assert_false. apply Z.ltb_ge. exact H.
Qed.

Lemma cnn_init_defaults (f : string) (p : Z) :
  0 < p ->
  exists est,
    MQCNNEstimator.__init__ (MQCNNEstimator.defaults f p) =
      ([build (Encoder default_cnn_encoder);
        build (Decoder {| ForkingMLPDecoder.dec_len := p;
                          ForkingMLPDecoder.final_dim := 30;
                          ForkingMLPDecoder.hidden_dimension_sequence := [];
                          ForkingMLPDecoder.prefix := "decoder_" |});
        build (Quantiles {| QuantileOutput.quantiles := deciles |})],
       inr est)
    /\ MQCNNEstimator.self_decoder_mlp_dim_seq est = [30]
    /\ MQCNNEstimator.self_channels_seq est = [30; 30; 30]
    /\ MQCNNEstimator.self_dilation_seq est = [1; 3; 5]
    /\ MQCNNEstimator.self_kernel_size_seq est = [7; 3; 3]
    /\ MQCNNEstimator.self_quantiles est = deciles
    /\ ForkingSeq2SeqEstimator.encoder (MQCNNEstimator.super est)
       = default_cnn_encoder
    /\ ForkingMLPDecoder.final_dim
         (ForkingSeq2SeqEstimator.decoder (MQCNNEstimator.super est)) = 30
    /\ ForkingMLPDecoder.hidden_dimension_sequence
         (ForkingSeq2SeqEstimator.decoder (MQCNNEstimator.super est)) = []
    /\ QuantileOutput.quantiles
         (ForkingSeq2SeqEstimator.quantile_output (MQCNNEstimator.super est))
       = deciles.
Proof.
  intros Hp. unfold MQCNNEstimator.__init__.
  pass_assert ltac:(apply Z.ltb_lt; exact Hp).
  eexists. split; [reflexivity|]. simpl. repeat split; reflexivity.
Qed.

Ltac split_assert :=
  match goal with
  | |- context [bind (assert ?b ?m) ?k] =>
      let E := fresh "E" in
      destruct b eqn:E;
      [ rewrite (bind_assert_true true m k eq_refl)
      | rewrite (bind_assert_false false m k eq_refl) ]
  end.

Lemma when_truthy_seed (s : option Z) :
  when_truthy s (fun seed =>
    perform (np_random_seed seed) ;; perform (mx_random_seed seed))
  = (seed_effects s, inr tt).
Proof.
  destruct s as [n|]; [|reflexivity].
  unfold when_truthy, truthy, seed_effects.
  destruct (n =? 0); reflexivity.
Qed.

Lemma bind_effects_value {A B : Type} (t : list effect) (a : A)
  (k : A -> Py B) :
  bind (t, inr a) k = ((t ++ effects (k a))%list, outcome (k a)).
Proof. unfold bind. destruct (k a) as [t2 r]. reflexivity. Qed.

(** A rejected call raises [AssertionError] and has done nothing yet. *)
Lemma cnn_init_rejects (a : MQCNNEstimator.kwargs) :
  cnn_checks a = false ->
  effects (MQCNNEstimator.__init__ a) = []
  /\ fails_validation (MQCNNEstimator.__init__ a).
Proof.
  unfold cnn_checks, MQCNNEstimator.__init__, fails_validation. intros H.
  repeat (split_assert; [| split; [reflexivity | eexists; reflexivity]]).
  discriminate H.
Qed.

(** An accepted call seeds the generators if asked to, builds the encoder,
    and then either stops at the last element of an empty
    [decoder_mlp_dim_seq] or builds the decoder and the quantile output. *)
Lemma cnn_init_accepts (a : MQCNNEstimator.kwargs) :
  cnn_checks a = true ->
  let enc := CNN_encoder {|
    HierarchicalCausalConv1DEncoder.dilation_seq :=
      if_not_None (MQCNNEstimator.dilation_seq a) [1; 3; 5];
    HierarchicalCausalConv1DEncoder.kernel_size_seq :=
      if_not_None (MQCNNEstimator.kernel_size_seq a) [7; 3; 3];
    HierarchicalCausalConv1DEncoder.channels_seq :=
      if_not_None (MQCNNEstimator.channels_seq a) [30; 30; 30];
    HierarchicalCausalConv1DEncoder.use_residual :=
      MQCNNEstimator.use_residual a;
    HierarchicalCausalConv1DEncoder.use_static_feat := true;
    HierarchicalCausalConv1DEncoder.use_dynamic_feat := true;
    HierarchicalCausalConv1DEncoder.prefix := "encoder_" |} in
  let dims := if_not_None (MQCNNEstimator.decoder_mlp_dim_seq a) [30] in
  let qs := if_not_None (MQCNNEstimator.quantiles a) deciles in
  (dims = []
   /\ MQCNNEstimator.__init__ a =
        ((seed_effects (MQCNNEstimator.seed a) ++ [build (Encoder enc)])%list,
         inl (IndexError "list index out of range")))
  \/ (exists est x rest,
        dims = x :: rest
        /\ let dec := {|
             ForkingMLPDecoder.dec_len := MQCNNEstimator.prediction_length a;
             ForkingMLPDecoder.final_dim := List.last rest x;
             ForkingMLPDecoder.hidden_dimension_sequence := removelast dims;
             ForkingMLPDecoder.prefix := "decoder_" |} in
           MQCNNEstimator.__init__ a =
             ((seed_effects (MQCNNEstimator.seed a)
               ++ [build (Encoder enc); build (Decoder dec);
                   build (Quantiles {| QuantileOutput.quantiles := qs |})])%list,
              inr est)
           /\ MQCNNEstimator.self_decoder_mlp_dim_seq est = dims
           /\ MQCNNEstimator.self_channels_seq est
              = if_not_None (MQCNNEstimator.channels_seq a) [30; 30; 30]
           /\ MQCNNEstimator.self_dilation_seq est
              = if_not_None (MQCNNEstimator.dilation_seq a) [1; 3; 5]
           /\ MQCNNEstimator.self_kernel_size_seq est
              = if_not_None (MQCNNEstimator.kernel_size_seq a) [7; 3; 3]
           /\ MQCNNEstimator.self_quantiles est = qs
           /\ ForkingSeq2SeqEstimator.encoder (MQCNNEstimator.super est) = enc
           /\ ForkingSeq2SeqEstimator.decoder (MQCNNEstimator.super est) = dec
           /\ ForkingSeq2SeqEstimator.quantile_output (MQCNNEstimator.super est)
              = {| QuantileOutput.quantiles := qs |}).
Proof.
  unfold cnn_checks, MQCNNEstimator.__init__. intros H.
  repeat (split_assert; [| discriminate H]). clear H.
  rewrite when_truthy_seed, bind_effects_value.
  destruct (if_not_None (MQCNNEstimator.decoder_mlp_dim_seq a) [30])
    as [|x rest] eqn:Edims.
  - left. split; [reflexivity|]. reflexivity.
  - right. eexists _, x, rest. split; [reflexivity|].
    split; [reflexivity|]. simpl. repeat split; reflexivity.
Qed.

Lemma rnn_init_rejects (a : MQRNNEstimator.kwargs) :
  rnn_checks a = false ->
  effects (MQRNNEstimator.__init__ a) = []
  /\ fails_validation (MQRNNEstimator.__init__ a).
Proof.
  unfold rnn_checks, MQRNNEstimator.__init__, fails_validation. intros H.
  repeat (split_assert; [| split; [reflexivity | eexists; reflexivity]]).
  discriminate H.
Qed.

Lemma rnn_init_accepts (a : MQRNNEstimator.kwargs) :
  rnn_checks a = true ->
  let dims := if_not_None (MQRNNEstimator.decoder_mlp_dim_seq a) [30] in
  let qs := if_not_None (MQRNNEstimator.quantiles a) deciles in
  (dims = []
   /\ MQRNNEstimator.__init__ a =
        ([build (Encoder the_rnn_encoder)],
         inl (IndexError "list index out of range")))
  \/ (exists est x rest,
        dims = x :: rest
        /\ let dec := {|
             ForkingMLPDecoder.dec_len := MQRNNEstimator.prediction_length a;
             ForkingMLPDecoder.final_dim := List.last rest x;
             ForkingMLPDecoder.hidden_dimension_sequence := removelast dims;
             ForkingMLPDecoder.prefix := "decoder_" |} in
           MQRNNEstimator.__init__ a =
             ([build (Encoder the_rnn_encoder); build (Decoder dec);
               build (Quantiles {| QuantileOutput.quantiles := qs |})],
              inr est)
           /\ MQRNNEstimator.self_decoder_mlp_dim_seq est = dims
           /\ MQRNNEstimator.self_quantiles est = qs
           /\ ForkingSeq2SeqEstimator.encoder (MQRNNEstimator.super est)
              = the_rnn_encoder
           /\ ForkingSeq2SeqEstimator.decoder (MQRNNEstimator.super est) = dec
           /\ ForkingSeq2SeqEstimator.quantile_output (MQRNNEstimator.super est)
              = {| QuantileOutput.quantiles := qs |}).
Proof.
  unfold rnn_checks, MQRNNEstimator.__init__. intros H.
  repeat (split_assert; [| discriminate H]). clear H.
  destruct (if_not_None (MQRNNEstimator.decoder_mlp_dim_seq a) [30])
    as [|x rest] eqn:Edims.
  - left. split; [reflexivity|]. reflexivity.
  - right. eexists _, x, rest. split; [reflexivity|].
    split; [reflexivity|]. simpl. repeat split; reflexivity.
Qed.

(** Either the checks fail or they pass. *)
Lemma cnn_init_AssertionError_iff (a : MQCNNEstimator.kwargs) :
  fails_validation (MQCNNEstimator.__init__ a) <-> cnn_checks a = false.
Proof.
  split.
  - intros [msg Hmsg]. destruct (cnn_checks a) eqn:E; [|reflexivity].
    destruct (cnn_init_accepts a E) as [[_ H] | (est & x & rest & _ & H & _)];
      rewrite H in Hmsg; discriminate Hmsg.
  - intros H. apply cnn_init_rejects, H.
Qed.

Lemma rnn_init_AssertionError_iff (a : MQRNNEstimator.kwargs) :
  fails_validation (MQRNNEstimator.__init__ a) <-> rnn_checks a = false.
Proof.
  split.
  - intros [msg Hmsg]. destruct (rnn_checks a) eqn:E; [|reflexivity].
    destruct (rnn_init_accepts a E) as [[_ H] | (est & x & rest & _ & H & _)];
      rewrite H in Hmsg; discriminate Hmsg.
  - intros H. apply rnn_init_rejects, H.
Qed.

Lemma rnn_init_defaults (p : Z) (f : string) :
  0 < p ->
  exists est,
    MQRNNEstimator.__init__ (MQRNNEstimator.defaults p f) =
      ([build (Encoder the_rnn_encoder);
        build (Decoder {| ForkingMLPDecoder.dec_len := p;
                          ForkingMLPDecoder.final_dim := 30;
                          ForkingMLPDecoder.hidden_dimension_sequence := [];
                          ForkingMLPDecoder.prefix := "decoder_" |});
        build (Quantiles {| QuantileOutput.quantiles := deciles |})],
       inr est)
    /\ MQRNNEstimator.self_decoder_mlp_dim_seq est = [30]
    /\ MQRNNEstimator.self_quantiles est = deciles
    /\ ForkingMLPDecoder.final_dim
         (ForkingSeq2SeqEstimator.decoder (MQRNNEstimator.super est)) = 30
    /\ ForkingMLPDecoder.hidden_dimension_sequence
         (ForkingSeq2SeqEstimator.decoder (MQRNNEstimator.super est)) = []
    /\ QuantileOutput.quantiles
         (ForkingSeq2SeqEstimator.quantile_output (MQRNNEstimator.super est))
       = deciles.
Proof.
  intros Hp. unfold MQRNNEstimator.__init__.
  pass_assert ltac:(apply Z.ltb_lt; exact Hp).
  eexists. split; [reflexivity|]. simpl. repeat split; reflexivity.
Qed.

(** * The estimators against their specification *)

(** ** Prediction length *)

(** C1: for every prediction_length <= 0 the constructor of either estimator
    fails with the configuration error (the failed assertion "Invalid
    prediction length"), having done nothing; for every prediction_length > 0
    with every other argument at its default, construction succeeds. *)
Theorem prediction_length_validation :
  (forall a : MQCNNEstimator.kwargs,
     MQCNNEstimator.prediction_length a <= 0 ->
     MQCNNEstimator.__init__ a =
       ([], inl (AssertionError
                   ("Invalid prediction length: "
                    ++ str_of_int (MQCNNEstimator.prediction_length a)
                    ++ "."))))
  /\ (forall a : MQRNNEstimator.kwargs,
        MQRNNEstimator.prediction_length a <= 0 ->
        MQRNNEstimator.__init__ a =
          ([], inl (AssertionError
                      ("Invalid prediction length: "
                       ++ str_of_int (MQRNNEstimator.prediction_length a)
                       ++ "."))))
  /\ (forall (f : string) (p : Z),
        0 < p ->
        succeeds (MQCNNEstimator.__init__ (MQCNNEstimator.defaults f p)))
  /\ (forall (p : Z) (f : string),
        0 < p ->
        succeeds (MQRNNEstimator.__init__ (MQRNNEstimator.defaults p f))).
Proof.
  split; [exact cnn_init_nonpositive_prediction_length|].
  split; [exact rnn_init_nonpositive_prediction_length|].
  split.
  - intros f p Hp. destruct (cnn_init_defaults f p Hp) as (est & H & _).
    exists est. rewrite H. reflexivity.
  - intros p f Hp. destruct (rnn_init_defaults p f Hp) as (est & H & _).
    exists est. rewrite H. reflexivity.
Qed.

Lemma prediction_length_validation_witness :
  MQCNNEstimator.__init__ (MQCNNEstimator.defaults "H" 0) =
    ([], inl (AssertionError "Invalid prediction length: 0."))
  /\ MQRNNEstimator.__init__ (MQRNNEstimator.defaults (-3) "D") =
       ([], inl (AssertionError "Invalid prediction length: -3."))
  /\ succeeds (MQCNNEstimator.__init__ (MQCNNEstimator.defaults "H" 12))
  /\ succeeds (MQRNNEstimator.__init__ (MQRNNEstimator.defaults 12 "H")).
Proof.
  destruct prediction_length_validation as (H1 & H2 & H3 & H4).
  split; [apply (H1 (MQCNNEstimator.defaults "H" 0)); simpl; lia|].
  split; [apply (H2 (MQRNNEstimator.defaults (-3) "D")); simpl; lia|].
  split; [apply (H3 "H" 12); lia | apply (H4 12 "H"); lia].
Defined.

(** ** Names of the signature *)

(** With the two names imported, the module loads and defines both
    estimators: the failure below is due to these names alone. *)
Lemma import_module_with_missing_names :
  exists globals,
    exec_module []
      (Import ["DistributionOutput"; "GaussianOutput"] :: module_body)
    = inr globals
    /\ bound globals "MQCNNEstimator" = true
    /\ bound globals "MQRNNEstimator" = true.
Proof. eexists. split; [reflexivity|]. split; reflexivity. Qed.

(** C2: for every input, obtaining an MQCNNEstimator fails with a
    name-resolution error before any validation runs: the signature of its
    constructor refers to DistributionOutput (annotation) and GaussianOutput
    (default value), which no statement of the module binds and which are not
    built-in names.  The error is raised when the [def] statement is executed,
    so the result does not depend on the arguments, no assertion is evaluated
    and no effect is performed. *)
Theorem constructor_signature_names_unbound :
  In "GaussianOutput" (def_defaults MQCNNEstimator_init_def)
  /\ In "DistributionOutput" (def_annotations MQCNNEstimator_init_def)
  /\ ~ In "GaussianOutput" (flat_map binds module_body ++ builtins)%list
  /\ ~ In "DistributionOutput" (flat_map binds module_body ++ builtins)%list
  /\ import_module = inl (NameError "name 'GaussianOutput' is not defined")
  /\ forall a : MQCNNEstimator.kwargs,
       construct_MQCNNEstimator a =
         ([], inl (NameError "name 'GaussianOutput' is not defined")).
Proof.
  split; [simpl; tauto|].
  split; [simpl; tauto|].
  split.
  { simpl. intros H.
    repeat (destruct H as [H | H]; [discriminate H|]). exact H. }
  split.
  { simpl. intros H.
    repeat (destruct H as [H | H]; [discriminate H|]). exact H. }
  split; [reflexivity|].
  intros a. reflexivity.
Qed.

(** ** The sequences of the convolutional encoder *)

Lemma cnn_checks_true (a : MQCNNEstimator.kwargs) :
  cnn_checks a = true <->
  0 < MQCNNEstimator.prediction_length a
  /\ is_None_or (MQCNNEstimator.decoder_mlp_dim_seq a)
       (all (fun d => 0 <? d)) = true
  /\ is_None_or (MQCNNEstimator.channels_seq a) (all (fun d => 0 <? d)) = true
  /\ is_None_or (MQCNNEstimator.dilation_seq a) (all (fun d => 0 <? d)) = true
  /\ is_None_or (MQCNNEstimator.kernel_size_seq a)
       (all (fun d => 1 <? d)) = true
  /\ is_None_or (MQCNNEstimator.quantiles a) (all in_unit_interval) = true
  /\ length (if_not_None (MQCNNEstimator.channels_seq a) [30; 30; 30])
     = length (if_not_None (MQCNNEstimator.dilation_seq a) [1; 3; 5])
  /\ length (if_not_None (MQCNNEstimator.dilation_seq a) [1; 3; 5])
     = length (if_not_None (MQCNNEstimator.kernel_size_seq a) [7; 3; 3]).
Proof.
  unfold cnn_checks. rewrite !andb_true_iff, !len_eqb, Z.ltb_lt. tauto.
Qed.

Lemma rnn_checks_true (a : MQRNNEstimator.kwargs) :
  rnn_checks a = true <->
  0 < MQRNNEstimator.prediction_length a
  /\ is_None_or (MQRNNEstimator.decoder_mlp_dim_seq a)
       (all (fun d => 0 <? d)) = true
  /\ is_None_or (MQRNNEstimator.quantiles a) (all in_unit_interval) = true.
Proof.
  unfold rnn_checks. rewrite !andb_true_iff, Z.ltb_lt. tauto.
Qed.

(** A call whose checks pass and whose decoder sequence is not empty ends
    in an estimator. *)
Lemma cnn_init_succeeds (a : MQCNNEstimator.kwargs) :
  cnn_checks a = true ->
  if_not_None (MQCNNEstimator.decoder_mlp_dim_seq a) [30] <> [] ->
  exists est,
    outcome (MQCNNEstimator.__init__ a) = inr est
    /\ MQCNNEstimator.self_quantiles est
       = if_not_None (MQCNNEstimator.quantiles a) deciles
    /\ ForkingSeq2SeqEstimator.quantile_output (MQCNNEstimator.super est)
       = {| QuantileOutput.quantiles :=
              if_not_None (MQCNNEstimator.quantiles a) deciles |}
    /\ ForkingSeq2SeqEstimator.encoder (MQCNNEstimator.super est)
       = CNN_encoder {|
           HierarchicalCausalConv1DEncoder.dilation_seq :=
             if_not_None (MQCNNEstimator.dilation_seq a) [1; 3; 5];
           HierarchicalCausalConv1DEncoder.kernel_size_seq :=
             if_not_None (MQCNNEstimator.kernel_size_seq a) [7; 3; 3];
           HierarchicalCausalConv1DEncoder.channels_seq :=
             if_not_None (MQCNNEstimator.channels_seq a) [30; 30; 30];
           HierarchicalCausalConv1DEncoder.use_residual :=
             MQCNNEstimator.use_residual a;
           HierarchicalCausalConv1DEncoder.use_static_feat := true;
           HierarchicalCausalConv1DEncoder.use_dynamic_feat := true;
           HierarchicalCausalConv1DEncoder.prefix := "encoder_" |}.
Proof.
  intros Hc Hne.
  destruct (cnn_init_accepts a Hc)
    as [[Hd _] | (est & x & rest & _ & H & _ & _ & _ & _ & Hq & He & _ & Hqo)].
  - contradiction.
  - exists est. rewrite H. repeat split; assumption.
Qed.

Lemma rnn_init_succeeds (a : MQRNNEstimator.kwargs) :
  rnn_checks a = true ->
  if_not_None (MQRNNEstimator.decoder_mlp_dim_seq a) [30] <> [] ->
  exists est,
    outcome (MQRNNEstimator.__init__ a) = inr est
    /\ MQRNNEstimator.self_quantiles est
       = if_not_None (MQRNNEstimator.quantiles a) deciles
    /\ ForkingSeq2SeqEstimator.quantile_output (MQRNNEstimator.super est)
       = {| QuantileOutput.quantiles :=
              if_not_None (MQRNNEstimator.quantiles a) deciles |}.
Proof.
  intros Hc Hne.
  destruct (rnn_init_accepts a Hc)
    as [[Hd _] | (est & x & rest & _ & H & _ & Hq & _ & _ & Hqo)].
  - contradiction.
  - exists est. rewrite H. repeat split; assumption.
Qed.

(** C3: when channels_seq, dilation_seq and kernel_size_seq are given with
    lengths that are not all equal, the MQCNNEstimator constructor fails (a
    failed assertion, nothing built); when they are given with equal lengths,
    every channel and dilation positive and every kernel size greater than
    one (the other arguments at their defaults, prediction_length > 0), it
    succeeds, whatever the values, and the encoder is built from the three
    sequences. *)
Theorem cnn_sequence_lengths_validation :
  (forall (a : MQCNNEstimator.kwargs) (c d k : list Z),
     MQCNNEstimator.channels_seq a = Some c ->
     MQCNNEstimator.dilation_seq a = Some d ->
     MQCNNEstimator.kernel_size_seq a = Some k ->
     ~ (length c = length d /\ length d = length k) ->
     effects (MQCNNEstimator.__init__ a) = []
     /\ fails_validation (MQCNNEstimator.__init__ a))
  /\ (forall (f : string) (p : Z) (c d k : list Z),
        0 < p ->
        length c = length d ->
        length d = length k ->
        Forall (fun x => 0 < x) c ->
        Forall (fun x => 0 < x) d ->
        Forall (fun x => 1 < x) k ->
        exists est,
          outcome (MQCNNEstimator.__init__ (cnn_call f p c d k)) = inr est
          /\ ForkingSeq2SeqEstimator.encoder (MQCNNEstimator.super est)
             = CNN_encoder {|
                 HierarchicalCausalConv1DEncoder.dilation_seq := d;
                 HierarchicalCausalConv1DEncoder.kernel_size_seq := k;
                 HierarchicalCausalConv1DEncoder.channels_seq := c;
                 HierarchicalCausalConv1DEncoder.use_residual := true;
                 HierarchicalCausalConv1DEncoder.use_static_feat := true;
                 HierarchicalCausalConv1DEncoder.use_dynamic_feat := true;
                 HierarchicalCausalConv1DEncoder.prefix := "encoder_" |}).
Proof.
  split.
  - intros a c d k Hc Hd Hk Hlen. apply cnn_init_rejects.
    destruct (cnn_checks a) eqn:E; [|reflexivity]. exfalso. apply Hlen.
    apply cnn_checks_true in E. rewrite Hc, Hd, Hk in E. simpl in E. tauto.
  - intros f p c d k Hp Hcd Hdk Hfc Hfd Hfk.
    assert (Hchk : cnn_checks (cnn_call f p c d k) = true).
    { apply cnn_checks_true. simpl.
      rewrite !all_gt_of_Forall by assumption. repeat split; assumption. }
    destruct (cnn_init_succeeds _ Hchk) as (est & Hest & _ & _ & Henc).
    { simpl. discriminate. }
    exists est. split; [exact Hest | exact Henc].
Qed.

Lemma cnn_sequence_lengths_validation_witness :
  (effects (MQCNNEstimator.__init__
              (cnn_call "H" 12 [30; 30; 30] [1; 3] [7; 3; 3])) = []
   /\ fails_validation
        (MQCNNEstimator.__init__
           (cnn_call "H" 12 [30; 30; 30] [1; 3] [7; 3; 3])))
  /\ succeeds (MQCNNEstimator.__init__ (cnn_call "H" 12 [8; 16] [1; 2] [2; 5])).
Proof.
  destruct cnn_sequence_lengths_validation as [H1 H2]. split.
  - apply (H1 _ [30; 30; 30] [1; 3] [7; 3; 3]);
      [reflexivity | reflexivity | reflexivity |]. simpl. lia.
  - destruct (H2 "H" 12 [8; 16] [1; 2] [2; 5]) as (est & Hest & _);
      [lia | reflexivity | reflexivity | | | |].
    + repeat constructor.
    + repeat constructor.
    + repeat constructor.
    + exists est. exact Hest.
Defined.

(** The message for channels of length 3 and dilations of length 2. *)
Example cnn_mismatch_message :
  MQCNNEstimator.__init__ (cnn_call "H" 12 [30; 30; 30] [1; 3] [7; 3; 3]) =
    ([], inl (AssertionError "mismatch CNN configurations: 3 vs. 2 vs. 3")).
Proof. reflexivity. Qed.

Lemma all_gt_false_of_In (b : Z) (l : list Z) (x : Z) :
  In x l -> x <= b -> all (fun d => b <? d) l = false.
Proof.
  intros Hin Hx. apply (all_false_of_In _ l x Hin). apply Z.ltb_ge, Hx.
Qed.

Lemma is_None_or_all_gt (b : Z) (o : option (list Z)) :
  (forall l, o = Some l -> Forall (fun d => b < d) l) ->
  is_None_or o (all (fun d => b <? d)) = true.
Proof.
  intros H. destruct o as [l|]; [|reflexivity].
  simpl. apply all_gt_of_Forall, H. reflexivity.
Qed.

(** C4: the MQCNNEstimator constructor checks that every element of
    channels_seq and of dilation_seq is positive and that every element of
    kernel_size_seq is greater than one.  With the earlier checks passed
    (prediction length, decoder dimensions, and the sequences checked before
    it), a sequence with an offending element makes the constructor fail, with
    nothing built, with the message that names that sequence; in particular
    kernel_size_seq=[1,3,3] fails with the message about kernel_size_seq. *)
Theorem cnn_sequence_elements_validation (a : MQCNNEstimator.kwargs) :
  0 < MQCNNEstimator.prediction_length a ->
  (forall m, MQCNNEstimator.decoder_mlp_dim_seq a = Some m ->
             Forall (fun d => 0 < d) m) ->
  (forall c x,
     MQCNNEstimator.channels_seq a = Some c -> In x c -> x <= 0 ->
     MQCNNEstimator.__init__ a =
       ([], inl (AssertionError "Elements of `channels_seq` should be > 0")))
  /\ ((forall c, MQCNNEstimator.channels_seq a = Some c ->
                 Forall (fun d => 0 < d) c) ->
      (forall d x,
         MQCNNEstimator.dilation_seq a = Some d -> In x d -> x <= 0 ->
         MQCNNEstimator.__init__ a =
           ([], inl (AssertionError
                       "Elements of `dilation_seq` should be > 0")))
      /\ ((forall d, MQCNNEstimator.dilation_seq a = Some d ->
                     Forall (fun x => 0 < x) d) ->
          forall k x,
            MQCNNEstimator.kernel_size_seq a = Some k -> In x k -> x <= 1 ->
            MQCNNEstimator.__init__ a =
              ([], inl (AssertionError
                          "Elements of `kernel_size_seq` should be > 0"))))
  /\ mentions "channels_seq" "Elements of `channels_seq` should be > 0" = true
  /\ mentions "dilation_seq" "Elements of `dilation_seq` should be > 0" = true
  /\ mentions "kernel_size_seq" "Elements of `kernel_size_seq` should be > 0"
     = true
  /\ forall (f : string) (p : Z),
       0 < p ->
       MQCNNEstimator.__init__
         (with_kernel_size_seq (MQCNNEstimator.defaults f p) (Some [1; 3; 3]))
       = ([], inl (AssertionError
                     "Elements of `kernel_size_seq` should be > 0")).
Proof.
  intros Hp Hdec.
  assert (Hp' : (0 <? MQCNNEstimator.prediction_length a) = true)
    by (apply Z.ltb_lt; exact Hp).
  pose proof (is_None_or_all_gt 0 _ Hdec) as Hdec'.
  split.
  { intros c x Hc Hin Hx. unfold MQCNNEstimator.__init__.
    pass_assert ltac:(exact Hp'). pass_assert ltac:(exact Hdec').
    apply bind_assert_false. rewrite Hc. simpl.
    apply (all_gt_false_of_In 0 c x Hin Hx). }
  split.
  { intros Hch. pose proof (is_None_or_all_gt 0 _ Hch) as Hch'. split.
    - intros d x Hd Hin Hx. unfold MQCNNEstimator.__init__.
      pass_assert ltac:(exact Hp'). pass_assert ltac:(exact Hdec').
      pass_assert ltac:(exact Hch').
      apply bind_assert_false. rewrite Hd. simpl.
      apply (all_gt_false_of_In 0 d x Hin Hx).
    - intros Hdi. pose proof (is_None_or_all_gt 0 _ Hdi) as Hdi'.
      intros k x Hk Hin Hx. unfold MQCNNEstimator.__init__.
      pass_assert ltac:(exact Hp'). pass_assert ltac:(exact Hdec').
      pass_assert ltac:(exact Hch'). pass_assert ltac:(exact Hdi').
      apply bind_assert_false. rewrite Hk. simpl.
      apply (all_gt_false_of_In 1 k x Hin Hx). }
  split; [reflexivity|]. split; [reflexivity|]. split; [reflexivity|].
  intros f p Hpos. unfold MQCNNEstimator.__init__.
  pass_assert ltac:(apply Z.ltb_lt; exact Hpos).
  reflexivity.
Qed.

Lemma cnn_sequence_elements_validation_witness :
  MQCNNEstimator.__init__
    (with_kernel_size_seq (MQCNNEstimator.defaults "H" 12) (Some [1; 3; 3]))
  = ([], inl (AssertionError "Elements of `kernel_size_seq` should be > 0"))
  /\ MQCNNEstimator.__init__
       (with_channels_seq (MQCNNEstimator.defaults "H" 12) (Some [30; 0; 30]))
     = ([], inl (AssertionError "Elements of `channels_seq` should be > 0")).
Proof.
  split.
  - assert (Hp : 0 < MQCNNEstimator.prediction_length
                       (with_kernel_size_seq (MQCNNEstimator.defaults "H" 12)
                          (Some [1; 3; 3]))) by (simpl; lia).
    refine (proj2 (proj1 (proj2
              (cnn_sequence_elements_validation _ Hp _)) _) _ [1; 3; 3] 1 _ _ _).
    + simpl. discriminate.
    + simpl. discriminate.
    + simpl. discriminate.
    + reflexivity.
    + simpl. left. reflexivity.
    + lia.
  - assert (Hp : 0 < MQCNNEstimator.prediction_length
                       (with_channels_seq (MQCNNEstimator.defaults "H" 12)
                          (Some [30; 0; 30]))) by (simpl; lia).
    refine (proj1 (cnn_sequence_elements_validation _ Hp _)
              [30; 0; 30] 0 _ _ _).
    + simpl. discriminate.
    + reflexivity.
    + simpl. right. left. reflexivity.
    + lia.
Defined.

(** ** Quantiles *)

Lemma all_in_unit_interval (qs : list float) :
  (forall d, In d qs ->
             PrimFloat.leb 0 d = true /\ PrimFloat.leb d 1 = true) ->
  all in_unit_interval qs = true.
Proof.
  intros H. apply all_Forall, Forall_forall. intros d Hd.
  apply list_elem_of_In in Hd. destruct (H d Hd) as [H0 H1].
  unfold in_unit_interval. rewrite H0, H1. reflexivity.
Qed.

Lemma quantile_outside_rejected (qs : list float) (d : float) :
  In d qs ->
  PrimFloat.ltb d 0 = true \/ PrimFloat.ltb 1 d = true ->
  all in_unit_interval qs = false.
Proof.
  intros Hin Hd. apply (all_false_of_In _ qs d Hin).
  apply outside_unit_interval, Hd.
Qed.

(** C5: a quantile sequence with a value strictly below 0 or strictly above
    1 makes the constructor of either estimator fail (a failed assertion,
    nothing built), whatever the other arguments; a quantile sequence whose
    values all satisfy 0 <= d <= 1, the bounds 0 and 1 included, is accepted
    (the other arguments at their defaults, prediction_length > 0) and is the
    sequence handed to the quantile output. *)
Theorem quantiles_range_validation :
  (forall (a : MQCNNEstimator.kwargs) (qs : list float) (d : float),
     MQCNNEstimator.quantiles a = Some qs ->
     In d qs ->
     PrimFloat.ltb d 0 = true \/ PrimFloat.ltb 1 d = true ->
     effects (MQCNNEstimator.__init__ a) = []
     /\ fails_validation (MQCNNEstimator.__init__ a))
  /\ (forall (a : MQRNNEstimator.kwargs) (qs : list float) (d : float),
        MQRNNEstimator.quantiles a = Some qs ->
        In d qs ->
        PrimFloat.ltb d 0 = true \/ PrimFloat.ltb 1 d = true ->
        effects (MQRNNEstimator.__init__ a) = []
        /\ fails_validation (MQRNNEstimator.__init__ a))
  /\ (forall (f : string) (p : Z) (qs : list float),
        0 < p ->
        (forall d, In d qs ->
                   PrimFloat.leb 0 d = true /\ PrimFloat.leb d 1 = true) ->
        exists est,
          outcome (MQCNNEstimator.__init__
                     (with_quantiles (MQCNNEstimator.defaults f p) (Some qs)))
          = inr est
          /\ MQCNNEstimator.self_quantiles est = qs
          /\ ForkingSeq2SeqEstimator.quantile_output
               (MQCNNEstimator.super est)
             = {| QuantileOutput.quantiles := qs |})
  /\ (forall (p : Z) (f : string) (qs : list float),
        0 < p ->
        (forall d, In d qs ->
                   PrimFloat.leb 0 d = true /\ PrimFloat.leb d 1 = true) ->
        exists est,
          outcome (MQRNNEstimator.__init__
                     (rnn_with_quantiles (MQRNNEstimator.defaults p f)
                        (Some qs)))
          = inr est
          /\ MQRNNEstimator.self_quantiles est = qs
          /\ ForkingSeq2SeqEstimator.quantile_output
               (MQRNNEstimator.super est)
             = {| QuantileOutput.quantiles := qs |}).
Proof.
  split; [|split; [|split]].
  - intros a qs d Hq Hin Hd. apply cnn_init_rejects.
    destruct (cnn_checks a) eqn:E; [|reflexivity].
    apply cnn_checks_true in E.
    destruct E as (_ & _ & _ & _ & _ & E & _). rewrite Hq in E. simpl in E.
    rewrite (quantile_outside_rejected qs d Hin Hd) in E. discriminate E.
  - intros a qs d Hq Hin Hd. apply rnn_init_rejects.
    destruct (rnn_checks a) eqn:E; [|reflexivity].
    apply rnn_checks_true in E.
    destruct E as (_ & _ & E). rewrite Hq in E. simpl in E.
    rewrite (quantile_outside_rejected qs d Hin Hd) in E. discriminate E.
  - intros f p qs Hp Hqs.
    assert (Hchk : cnn_checks
                     (with_quantiles (MQCNNEstimator.defaults f p) (Some qs))
                   = true).
    { apply cnn_checks_true. simpl.
      rewrite (all_in_unit_interval qs Hqs). repeat split. exact Hp. }
    destruct (cnn_init_succeeds _ Hchk) as (est & Hest & Hq & Hqo & _).
    { simpl. discriminate. }
    exists est. split; [exact Hest|]. split; [exact Hq | exact Hqo].
  - intros p f qs Hp Hqs.
    assert (Hchk : rnn_checks
                     (rnn_with_quantiles (MQRNNEstimator.defaults p f)
                        (Some qs))
                   = true).
    { apply rnn_checks_true. simpl.
      rewrite (all_in_unit_interval qs Hqs). repeat split. exact Hp. }
    destruct (rnn_init_succeeds _ Hchk) as (est & Hest & Hq & Hqo).
    { simpl. discriminate. }
    exists est. split; [exact Hest|]. split; [exact Hq | exact Hqo].
Qed.

Lemma quantiles_range_validation_witness :
  fails_validation
    (MQCNNEstimator.__init__
       (with_quantiles (MQCNNEstimator.defaults "H" 12)
          (Some [0.5; 1.5]%float)))
  /\ fails_validation
       (MQRNNEstimator.__init__
          (rnn_with_quantiles (MQRNNEstimator.defaults 12 "H")
             (Some [(-0.1); 0.5]%float)))
  /\ succeeds
       (MQCNNEstimator.__init__
          (with_quantiles (MQCNNEstimator.defaults "H" 12)
             (Some [0; 0.5; 1]%float)))
  /\ succeeds
       (MQRNNEstimator.__init__
          (rnn_with_quantiles (MQRNNEstimator.defaults 12 "H")
             (Some [0; 1]%float))).
Proof.
  destruct quantiles_range_validation as (H1 & H2 & H3 & H4).
  split; [|split; [|split]].
  - apply (H1 _ [0.5; 1.5]%float 1.5%float); [reflexivity | |].
    + simpl. right. left. reflexivity.
    + right. reflexivity.
  - apply (H2 _ [(-0.1); 0.5]%float (-0.1)%float); [reflexivity | |].
    + simpl. left. reflexivity.
    + left. reflexivity.
  - destruct (H3 "H" 12 [0; 0.5; 1]%float) as (est & Hest & _); [lia | |].
    + simpl. intros d [<- | [<- | [<- | []]]]; split; reflexivity.
    + exists est. exact Hest.
  - destruct (H4 12 "H" [0; 1]%float) as (est & Hest & _); [lia | |].
    + simpl. intros d [<- | [<- | []]]; split; reflexivity.
    + exists est. exact Hest.
Defined.

(** The special values: an infinity is rejected like any value outside the
    interval, and so is a NaN, which is neither below 0 nor above 1. *)
Example quantiles_special_values :
  map in_unit_interval [infinity; neg_infinity; nan; 0; 1]%float
  = [false; false; false; true; true].
Proof. reflexivity. Qed.

(** ** Defaults *)

(** What a successful call of [MQCNNEstimator.__init__] has done. *)
Lemma cnn_init_inr (a : MQCNNEstimator.kwargs) (est : MQCNNEstimator.t) :
  outcome (MQCNNEstimator.__init__ a) = inr est ->
  exists x rest,
    let dims := if_not_None (MQCNNEstimator.decoder_mlp_dim_seq a) [30] in
    let qs := if_not_None (MQCNNEstimator.quantiles a) deciles in
    let enc := ForkingSeq2SeqEstimator.encoder (MQCNNEstimator.super est) in
    let dec := ForkingSeq2SeqEstimator.decoder (MQCNNEstimator.super est) in
    let qo :=
      ForkingSeq2SeqEstimator.quantile_output (MQCNNEstimator.super est) in
    dims = x :: rest
    /\ effects (MQCNNEstimator.__init__ a) =
         (seed_effects (MQCNNEstimator.seed a)
          ++ [build (Encoder enc); build (Decoder dec); build (Quantiles qo)])%list
    /\ MQCNNEstimator.self_decoder_mlp_dim_seq est = dims
    /\ MQCNNEstimator.self_channels_seq est
       = if_not_None (MQCNNEstimator.channels_seq a) [30; 30; 30]
    /\ MQCNNEstimator.self_dilation_seq est
       = if_not_None (MQCNNEstimator.dilation_seq a) [1; 3; 5]
    /\ MQCNNEstimator.self_kernel_size_seq est
       = if_not_None (MQCNNEstimator.kernel_size_seq a) [7; 3; 3]
    /\ MQCNNEstimator.self_quantiles est = qs
    /\ enc = CNN_encoder {|
         HierarchicalCausalConv1DEncoder.dilation_seq :=
           if_not_None (MQCNNEstimator.dilation_seq a) [1; 3; 5];
         HierarchicalCausalConv1DEncoder.kernel_size_seq :=
           if_not_None (MQCNNEstimator.kernel_size_seq a) [7; 3; 3];
         HierarchicalCausalConv1DEncoder.channels_seq :=
           if_not_None (MQCNNEstimator.channels_seq a) [30; 30; 30];
         HierarchicalCausalConv1DEncoder.use_residual :=
           MQCNNEstimator.use_residual a;
         HierarchicalCausalConv1DEncoder.use_static_feat := true;
         HierarchicalCausalConv1DEncoder.use_dynamic_feat := true;
         HierarchicalCausalConv1DEncoder.prefix := "encoder_" |}
    /\ dec = {|
         ForkingMLPDecoder.dec_len := MQCNNEstimator.prediction_length a;
         ForkingMLPDecoder.final_dim := List.last rest x;
         ForkingMLPDecoder.hidden_dimension_sequence := removelast dims;
         ForkingMLPDecoder.prefix := "decoder_" |}
    /\ qo = {| QuantileOutput.quantiles := qs |}.
Proof.
  intros Hest.
  destruct (cnn_checks a) eqn:E.
  - destruct (cnn_init_accepts a E)
      as [[_ H] | (est' & x & rest & Hd & H & H1 & H2 & H3 & H4 & H5 & H6
                   & H7 & H8)].
    + rewrite H in Hest. discriminate Hest.
    + rewrite H in Hest. simpl in Hest. injection Hest as <-.
      exists x, rest. simpl. rewrite H. simpl.
      rewrite H6, H7, H8. repeat split; assumption.
  - destruct (cnn_init_rejects a E) as [_ [msg Hmsg]].
    rewrite Hmsg in Hest. discriminate Hest.
Qed.

Lemma rnn_init_inr (a : MQRNNEstimator.kwargs) (est : MQRNNEstimator.t) :
  outcome (MQRNNEstimator.__init__ a) = inr est ->
  exists x rest,
    let dims := if_not_None (MQRNNEstimator.decoder_mlp_dim_seq a) [30] in
    let qs := if_not_None (MQRNNEstimator.quantiles a) deciles in
    let dec := ForkingSeq2SeqEstimator.decoder (MQRNNEstimator.super est) in
    let qo :=
      ForkingSeq2SeqEstimator.quantile_output (MQRNNEstimator.super est) in
    dims = x :: rest
    /\ effects (MQRNNEstimator.__init__ a) =
         [build (Encoder the_rnn_encoder); build (Decoder dec);
          build (Quantiles qo)]
    /\ MQRNNEstimator.self_decoder_mlp_dim_seq est = dims
    /\ MQRNNEstimator.self_quantiles est = qs
    /\ ForkingSeq2SeqEstimator.encoder (MQRNNEstimator.super est)
       = the_rnn_encoder
    /\ dec = {|
         ForkingMLPDecoder.dec_len := MQRNNEstimator.prediction_length a;
         ForkingMLPDecoder.final_dim := List.last rest x;
         ForkingMLPDecoder.hidden_dimension_sequence := removelast dims;
         ForkingMLPDecoder.prefix := "decoder_" |}
    /\ qo = {| QuantileOutput.quantiles := qs |}.
Proof.
  intros Hest.
  destruct (rnn_checks a) eqn:E.
  - destruct (rnn_init_accepts a E)
      as [[_ H] | (est' & x & rest & Hd & H & H1 & H2 & H3 & H4 & H5)].
    + rewrite H in Hest. discriminate Hest.
    + rewrite H in Hest. simpl in Hest. injection Hest as <-.
      exists x, rest. simpl. rewrite H. simpl.
      rewrite H4, H5. repeat split; assumption.
  - destruct (rnn_init_rejects a E) as [_ [msg Hmsg]].
    rewrite Hmsg in Hest. discriminate Hest.
Qed.

(** C6: an argument that is omitted (None) takes its default in the
    estimator that is built: quantiles the nine deciles 0.1 ... 0.9,
    channels_seq [30,30,30], dilation_seq [1,3,5], kernel_size_seq [7,3,3],
    decoder_mlp_dim_seq [30], so that the decoder has final dimension 30 and
    no intermediate layer; and the call with all of them omitted and
    prediction_length > 0 does build such an estimator. *)
Theorem omitted_arguments_take_defaults :
  deciles = [0.1; 0.2; 0.3; 0.4; 0.5; 0.6; 0.7; 0.8; 0.9]%float
  /\ length deciles = 9%nat
  /\ (forall (a : MQCNNEstimator.kwargs) (est : MQCNNEstimator.t),
        outcome (MQCNNEstimator.__init__ a) = inr est ->
        let base := MQCNNEstimator.super est in
        (MQCNNEstimator.quantiles a = None ->
           MQCNNEstimator.self_quantiles est = deciles
           /\ QuantileOutput.quantiles
                (ForkingSeq2SeqEstimator.quantile_output base) = deciles)
        /\ (MQCNNEstimator.channels_seq a = None ->
              MQCNNEstimator.self_channels_seq est = [30; 30; 30])
        /\ (MQCNNEstimator.dilation_seq a = None ->
              MQCNNEstimator.self_dilation_seq est = [1; 3; 5])
        /\ (MQCNNEstimator.kernel_size_seq a = None ->
              MQCNNEstimator.self_kernel_size_seq est = [7; 3; 3])
        /\ (MQCNNEstimator.decoder_mlp_dim_seq a = None ->
              MQCNNEstimator.self_decoder_mlp_dim_seq est = [30]
              /\ ForkingMLPDecoder.final_dim
                   (ForkingSeq2SeqEstimator.decoder base) = 30
              /\ ForkingMLPDecoder.hidden_dimension_sequence
                   (ForkingSeq2SeqEstimator.decoder base) = []))
  /\ (forall (a : MQRNNEstimator.kwargs) (est : MQRNNEstimator.t),
        outcome (MQRNNEstimator.__init__ a) = inr est ->
        let base := MQRNNEstimator.super est in
        (MQRNNEstimator.quantiles a = None ->
           MQRNNEstimator.self_quantiles est = deciles
           /\ QuantileOutput.quantiles
                (ForkingSeq2SeqEstimator.quantile_output base) = deciles)
        /\ (MQRNNEstimator.decoder_mlp_dim_seq a = None ->
              MQRNNEstimator.self_decoder_mlp_dim_seq est = [30]
              /\ ForkingMLPDecoder.final_dim
                   (ForkingSeq2SeqEstimator.decoder base) = 30
              /\ ForkingMLPDecoder.hidden_dimension_sequence
                   (ForkingSeq2SeqEstimator.decoder base) = []))
  /\ (forall (f : string) (p : Z),
        0 < p ->
        exists est,
          outcome (MQCNNEstimator.__init__ (MQCNNEstimator.defaults f p))
          = inr est
          /\ MQCNNEstimator.self_quantiles est = deciles
          /\ MQCNNEstimator.self_channels_seq est = [30; 30; 30]
          /\ MQCNNEstimator.self_dilation_seq est = [1; 3; 5]
          /\ MQCNNEstimator.self_kernel_size_seq est = [7; 3; 3]
          /\ MQCNNEstimator.self_decoder_mlp_dim_seq est = [30]
          /\ ForkingSeq2SeqEstimator.encoder (MQCNNEstimator.super est)
             = default_cnn_encoder
          /\ ForkingMLPDecoder.final_dim
               (ForkingSeq2SeqEstimator.decoder (MQCNNEstimator.super est))
             = 30
          /\ ForkingMLPDecoder.hidden_dimension_sequence
               (ForkingSeq2SeqEstimator.decoder (MQCNNEstimator.super est))
             = []
          /\ QuantileOutput.quantiles
               (ForkingSeq2SeqEstimator.quantile_output
                  (MQCNNEstimator.super est))
             = deciles).
Proof.
  split; [reflexivity|]. split; [reflexivity|].
  split; [|split].
  - intros a est Hest base. subst base.
    destruct (cnn_init_inr a est Hest)
      as (x & rest & Hd & _ & H1 & H2 & H3 & H4 & H5 & _ & H7 & H8).
    simpl in *. rewrite H7, H8. simpl.
    split; [intros E; rewrite E in *; split; [exact H5 | reflexivity]|].
    split; [intros E; rewrite E in *; exact H2|].
    split; [intros E; rewrite E in *; exact H3|].
    split; [intros E; rewrite E in *; exact H4|].
    intros E. rewrite E in *. simpl in *. injection Hd as <- <-.
    split; [exact H1|]. split; reflexivity.
  - intros a est Hest base. subst base.
    destruct (rnn_init_inr a est Hest)
      as (x & rest & Hd & _ & H1 & H2 & _ & H7 & H8).
    simpl in *. rewrite H7, H8. simpl.
    split; [intros E; rewrite E in *; split; [exact H2 | reflexivity]|].
    intros E. rewrite E in *. simpl in *. injection Hd as <- <-.
    split; [exact H1|]. split; reflexivity.
  - intros f p Hp.
    destruct (cnn_init_defaults f p Hp)
      as (est & H & H1 & H2 & H3 & H4 & H5 & H6 & H7 & H8 & H9).
    exists est. rewrite H. simpl. repeat split; assumption.
Qed.

Lemma omitted_arguments_take_defaults_witness :
  exists est,
    outcome (MQCNNEstimator.__init__ (MQCNNEstimator.defaults "H" 12))
    = inr est
    /\ MQCNNEstimator.self_quantiles est = deciles
    /\ ForkingMLPDecoder.final_dim
         (ForkingSeq2SeqEstimator.decoder (MQCNNEstimator.super est)) = 30
    /\ ForkingMLPDecoder.hidden_dimension_sequence
         (ForkingSeq2SeqEstimator.decoder (MQCNNEstimator.super est)) = [].
Proof.
  destruct omitted_arguments_take_defaults as (_ & _ & Hcnn & _ & Hdef).
  destruct (Hdef "H" 12) as (est & Hest & _); [lia|].
  exists est. split; [exact Hest|].
  destruct (Hcnn (MQCNNEstimator.defaults "H" 12) est Hest)
    as (Hq & _ & _ & _ & Hd).
  split; [apply Hq; reflexivity|].
  destruct Hd as (_ & Hf & Hh); [reflexivity|].
  split; [exact Hf | exact Hh].
Defined.

(** ** Seeding *)

Lemma apply_effects_app (st : random_state) (t1 t2 : list effect) :
  apply_effects st (t1 ++ t2) = apply_effects (apply_effects st t1) t2.
Proof. unfold apply_effects. apply fold_left_app. Qed.

Lemma apply_effects_no_seed (st : random_state) (t : list effect) :
  forallb (fun ef => negb (is_seed ef)) t = true ->
  apply_effects st t = st.
Proof.
  unfold apply_effects. revert st.
  induction t as [|ef t IH]; intros st H; simpl in *; [reflexivity|].
  apply andb_true_iff in H. destruct H as [Hef Ht].
  destruct ef; simpl in Hef; try discriminate Hef; simpl; apply IH, Ht.
Qed.

(** The effects of a call of [MQCNNEstimator.__init__]: nothing, or the
    seeding calls for the [seed] argument followed by builds only. *)
Lemma cnn_init_effects (a : MQCNNEstimator.kwargs) :
  effects (MQCNNEstimator.__init__ a) = []
  \/ exists builds,
       effects (MQCNNEstimator.__init__ a)
       = (seed_effects (MQCNNEstimator.seed a) ++ builds)%list
       /\ builds <> []
       /\ forallb is_build builds = true.
Proof.
  destruct (cnn_checks a) eqn:E.
  - right.
    destruct (cnn_init_accepts a E)
      as [[_ H] | (est & x & rest & _ & H & _)]; rewrite H; simpl;
      eexists; (split; [reflexivity|]); split; (discriminate || reflexivity).
  - left. apply cnn_init_rejects, E.
Qed.

Lemma builds_no_seed (t : list effect) :
  forallb is_build t = true ->
  forallb (fun ef => negb (is_seed ef)) t = true.
Proof.
  intros H. apply forallb_forall. intros ef Hin.
  rewrite forallb_forall in H. specialize (H ef Hin).
  destruct ef; simpl in *; (discriminate H || reflexivity).
Qed.

(** A seed other than 0 is given to both generators before anything is
    built. *)
Lemma seed_nonzero_propagated (a : MQCNNEstimator.kwargs) (s : Z)
  (est : MQCNNEstimator.t) (st : random_state) :
  MQCNNEstimator.seed a = Some s ->
  s <> 0 ->
  outcome (MQCNNEstimator.__init__ a) = inr est ->
  (exists builds,
     effects (MQCNNEstimator.__init__ a)
     = np_random_seed s :: mx_random_seed s :: builds
     /\ forallb is_build builds = true)
  /\ apply_effects st (effects (MQCNNEstimator.__init__ a))
     = {| np_random := Some s; mx_random := Some s |}.
Proof.
  intros Hs Hne Hest.
  destruct (cnn_init_inr a est Hest) as (x & rest & _ & Heff & _).
  simpl in Heff. rewrite Heff, Hs. unfold seed_effects.
  destruct (s =? 0) eqn:E; [apply Z.eqb_eq in E; contradiction|].
  split.
  - eexists. split; reflexivity.
  - reflexivity.
Qed.

(** Without a seed, construction leaves the random state as it was. *)
Lemma no_seed_random_state_unchanged (a : MQCNNEstimator.kwargs)
  (st : random_state) :
  MQCNNEstimator.seed a = None ->
  apply_effects st (effects (MQCNNEstimator.__init__ a)) = st.
Proof.
  intros Hs.
  destruct (cnn_init_effects a) as [H | (builds & H & _ & Hb)];
    rewrite H; [reflexivity|].
  rewrite Hs. simpl. apply apply_effects_no_seed, builds_no_seed, Hb.
Qed.

(** C7, at the seed 0: the constructor tests [if seed:], and 0 is false in
    a condition.  The call with seed=0 builds the estimator without seeding
    either generator, so the random state is what it was before; the same
    call with seed=42 seeds both generators first. *)
Theorem seed_zero_is_not_propagated :
  (forall (a : MQCNNEstimator.kwargs) (st : random_state),
     List.filter is_seed
       (effects (MQCNNEstimator.__init__ (with_seed a (Some 0)))) = []
     /\ apply_effects st
          (effects (MQCNNEstimator.__init__ (with_seed a (Some 0)))) = st)
  /\ succeeds
       (MQCNNEstimator.__init__
          (with_seed (MQCNNEstimator.defaults "H" 12) (Some 0)))
  /\ apply_effects {| np_random := Some 7; mx_random := None |}
       (effects (MQCNNEstimator.__init__
                   (with_seed (MQCNNEstimator.defaults "H" 12) (Some 0))))
     = {| np_random := Some 7; mx_random := None |}
  /\ apply_effects {| np_random := Some 7; mx_random := None |}
       (effects (MQCNNEstimator.__init__
                   (with_seed (MQCNNEstimator.defaults "H" 12) (Some 42))))
     = {| np_random := Some 42; mx_random := Some 42 |}.
Proof.
  split.
  - intros a st.
    assert (Hs : MQCNNEstimator.seed (with_seed a (Some 0)) = Some 0)
      by (destruct a; reflexivity).
    destruct (cnn_init_effects (with_seed a (Some 0)))
      as [H | (builds & H & _ & Hb)]; rewrite H; [split; reflexivity|].
    rewrite Hs. simpl. pose proof (builds_no_seed builds Hb) as Hn. split.
    + clear H Hb. induction builds as [|ef t IH]; [reflexivity|].
      simpl in Hn. apply andb_true_iff in Hn. destruct Hn as [Hef Ht].
      simpl. destruct (is_seed ef); [discriminate Hef | apply IH, Ht].
    + apply apply_effects_no_seed, Hn.
  - split; [eexists; reflexivity|]. split; reflexivity.
Qed.

(** ** Fields derived from the training data *)

Lemma bool_of_list_true {A : Type} (l : list A) :
  bool_of_list l = true <-> l <> [].
Proof. destruct l; simpl; split; congruence. Qed.

(** An error of [calculate_dataset_statistics] is the error of
    [derive_auto_fields]. *)
Lemma derive_auto_fields_raises {Dataset : Type}
  (calculate_dataset_statistics : Dataset -> Py DatasetStatistics.t)
  (train_iter : Dataset) (t : list effect) (e : exception) :
  calculate_dataset_statistics train_iter = (t, inl e) ->
  MQCNNEstimator.derive_auto_fields calculate_dataset_statistics train_iter
  = (t, inl e).
Proof.
  intros H. unfold MQCNNEstimator.derive_auto_fields. rewrite H. reflexivity.
Qed.

(** C8: once the statistics of the training data are computed,
    derive_auto_fields returns (after one log record) a dictionary with the
    three keys use_feat_dynamic_real, use_feat_static_cat and cardinality, in
    which use_feat_dynamic_real is true exactly when the number of dynamic
    real features is greater than 0, use_feat_static_cat is true exactly when
    the list of static categorical features is not empty, and cardinality
    lists the number of distinct values of each static categorical feature;
    with no dynamic real feature and two static categorical features of 5 and
    12 distinct values the dictionary is {use_feat_dynamic_real: False,
    use_feat_static_cat: True, cardinality: [5, 12]}. *)
Theorem derive_auto_fields_result {Dataset : Type}
  (calculate_dataset_statistics : Dataset -> Py DatasetStatistics.t)
  (train_iter : Dataset) (t : list effect) (stats : DatasetStatistics.t) :
  calculate_dataset_statistics train_iter = (t, inr stats) ->
  exists (auto_fields : gmap string MQCNNEstimator.value) (record : string)
         (dynamic_real static_cat : bool),
    MQCNNEstimator.derive_auto_fields calculate_dataset_statistics train_iter
    = ((t ++ [logger_info record])%list, inr auto_fields)
    /\ dom auto_fields
       = {[ "use_feat_dynamic_real"; "use_feat_static_cat"; "cardinality" ]}
    /\ auto_fields !! "use_feat_dynamic_real"
       = Some (MQCNNEstimator.VBool dynamic_real)
    /\ (dynamic_real = true
        <-> 0 < DatasetStatistics.num_feat_dynamic_real stats)
    /\ auto_fields !! "use_feat_static_cat"
       = Some (MQCNNEstimator.VBool static_cat)
    /\ (static_cat = true <-> DatasetStatistics.feat_static_cat stats <> [])
    /\ auto_fields !! "cardinality"
       = Some (MQCNNEstimator.VList
                 (map (fun cats : gset Z => Z.of_nat (size cats))
                      (DatasetStatistics.feat_static_cat stats)))
    /\ (forall X Y : gset Z,
          DatasetStatistics.num_feat_dynamic_real stats = 0 ->
          DatasetStatistics.feat_static_cat stats = [X; Y] ->
          size X = 5%nat ->
          size Y = 12%nat ->
          auto_fields
          = <["cardinality" := MQCNNEstimator.VList [5; 12]]>
              (<["use_feat_static_cat" := MQCNNEstimator.VBool true]>
                 (<["use_feat_dynamic_real" := MQCNNEstimator.VBool false]>
                    ∅))).
Proof.
  intros Hstats. unfold MQCNNEstimator.derive_auto_fields.
  rewrite Hstats, bind_effects_value.
  unfold MQCNNEstimator.getitem.
  rewrite lookup_insert_ne by discriminate.
  rewrite lookup_insert_ne by discriminate.
  rewrite lookup_insert_eq, bind_ret_l.
  rewrite lookup_insert_ne by discriminate.
  rewrite lookup_insert_eq, bind_ret_l.
  rewrite lookup_insert_eq, bind_ret_l.
  rewrite bind_perform. simpl.
  eexists _, _, _, _. split; [reflexivity|].
  split.
  { rewrite !dom_insert_L, dom_empty_L. set_solver. }
  split; [rewrite !lookup_insert_ne by discriminate; apply lookup_insert_eq|].
  split; [apply Z.ltb_lt|].
  split; [rewrite lookup_insert_ne by discriminate; apply lookup_insert_eq|].
  split; [apply bool_of_list_true|].
  split; [apply lookup_insert_eq|].
  intros X Y Hn Hcats HX HY. rewrite Hn, Hcats. simpl.
  rewrite HX, HY. reflexivity.
Qed.

Lemma derive_auto_fields_result_witness :
  exists (auto_fields : gmap string MQCNNEstimator.value) (record : string),
    MQCNNEstimator.derive_auto_fields (fun _ : unit => ret example_statistics)
      tt
    = ([logger_info record], inr auto_fields)
    /\ auto_fields !! "use_feat_dynamic_real"
       = Some (MQCNNEstimator.VBool false)
    /\ auto_fields !! "use_feat_static_cat"
       = Some (MQCNNEstimator.VBool true)
    /\ auto_fields !! "cardinality" = Some (MQCNNEstimator.VList [5; 12]).
Proof.
  destruct (derive_auto_fields_result
              (fun _ : unit => ret example_statistics) tt [] example_statistics
              eq_refl)
    as (auto_fields & record & b1 & b2 & Hrun & _ & _ & _ & _ & _ & _ & Hex).
  exists auto_fields, record. split; [exact Hrun|].
  rewrite (Hex (list_to_set [0; 1; 2; 3; 4])
               (list_to_set [0; 1; 2; 3; 4; 5; 6; 7; 8; 9; 10; 11])
               eq_refl eq_refl);
    [| vm_compute; reflexivity | vm_compute; reflexivity].
  split; [vm_compute; reflexivity|]. split; vm_compute; reflexivity.
Defined.

(** The log record of the example. *)
Example derive_auto_fields_log :
  effects (MQCNNEstimator.derive_auto_fields
             (fun _ : unit => ret example_statistics) tt)
  = [logger_info
       "gluonts[from_inputs]: use_feat_dynamic_real set to 'False', and use use_feat_static_cat to 'True' with cardinality of '[5, 12]'"].
Proof. vm_compute. reflexivity. Qed.

(** ** Failing before building *)

(** C9: when the constructor of either estimator fails one of its checks
    (it ends in a failed assertion), it has performed no effect: no encoder,
    decoder or quantile output has been built and no generator seeded. *)
Theorem validation_failure_builds_nothing :
  (forall (a : MQCNNEstimator.kwargs) (msg : string),
     outcome (MQCNNEstimator.__init__ a) = inl (AssertionError msg) ->
     effects (MQCNNEstimator.__init__ a) = [])
  /\ (forall (a : MQRNNEstimator.kwargs) (msg : string),
        outcome (MQRNNEstimator.__init__ a) = inl (AssertionError msg) ->
        effects (MQRNNEstimator.__init__ a) = []).
Proof.
  split.
  - intros a msg H. apply cnn_init_rejects.
    apply cnn_init_AssertionError_iff. exists msg. exact H.
  - intros a msg H. apply rnn_init_rejects.
    apply rnn_init_AssertionError_iff. exists msg. exact H.
Qed.

Lemma validation_failure_builds_nothing_witness :
  effects (MQCNNEstimator.__init__
             (with_seed (cnn_call "H" 12 [30; 30; 30] [1; 3] [7; 3; 3])
                (Some 42))) = []
  /\ effects (MQRNNEstimator.__init__
                (rnn_with_quantiles (MQRNNEstimator.defaults 12 "H")
                   (Some [1.5]%float))) = [].
Proof.
  destruct validation_failure_builds_nothing as [H1 H2]. split.
  - apply (H1 _ "mismatch CNN configurations: 3 vs. 2 vs. 3"). reflexivity.
  - apply (H2 _ "Elements of `quantiles` should be >= 0 and <= 1").
    reflexivity.
Defined.

(** ** The empty decoder sequence *)

Lemma cnn_checks_empty_decoder (a : MQCNNEstimator.kwargs) :
  cnn_checks (with_decoder_mlp_dim_seq a (Some []))
  = cnn_checks (with_decoder_mlp_dim_seq a None).
Proof. destruct a. reflexivity. Qed.

Lemma rnn_checks_empty_decoder (a : MQRNNEstimator.kwargs) :
  rnn_checks (rnn_with_decoder_mlp_dim_seq a (Some []))
  = rnn_checks (rnn_with_decoder_mlp_dim_seq a None).
Proof. destruct a. reflexivity. Qed.

Lemma cnn_succeeds_checks (a : MQCNNEstimator.kwargs) :
  succeeds (MQCNNEstimator.__init__ a) -> cnn_checks a = true.
Proof.
  intros [est Hest]. destruct (cnn_checks a) eqn:E; [reflexivity|].
  destruct (cnn_init_rejects a E) as [_ [msg Hmsg]].
  rewrite Hmsg in Hest. discriminate Hest.
Qed.

Lemma rnn_succeeds_checks (a : MQRNNEstimator.kwargs) :
  succeeds (MQRNNEstimator.__init__ a) -> rnn_checks a = true.
Proof.
  intros [est Hest]. destruct (rnn_checks a) eqn:E; [reflexivity|].
  destruct (rnn_init_rejects a E) as [_ [msg Hmsg]].
  rewrite Hmsg in Hest. discriminate Hest.
Qed.

(** C10: the empty list passes the check that every element of
    decoder_mlp_dim_seq is positive; and for arguments that are accepted
    with decoder_mlp_dim_seq omitted, the same call with
    decoder_mlp_dim_seq=[] fails in either estimator with IndexError, raised
    by taking the last element of the list after the encoder has been built,
    and not with a failed assertion. *)
Theorem empty_decoder_mlp_dim_seq_raises_IndexError :
  is_None_or (Some []) (all (fun d => 0 <? d)) = true
  /\ (forall a : MQCNNEstimator.kwargs,
        succeeds (MQCNNEstimator.__init__ (with_decoder_mlp_dim_seq a None)) ->
        let run :=
          MQCNNEstimator.__init__ (with_decoder_mlp_dim_seq a (Some [])) in
        outcome run = inl (IndexError "list index out of range")
        /\ ~ fails_validation run
        /\ exists enc,
             effects run
             = (seed_effects (MQCNNEstimator.seed a)
                ++ [build (Encoder enc)])%list)
  /\ (forall a : MQRNNEstimator.kwargs,
        succeeds
          (MQRNNEstimator.__init__ (rnn_with_decoder_mlp_dim_seq a None)) ->
        let run :=
          MQRNNEstimator.__init__ (rnn_with_decoder_mlp_dim_seq a (Some []))
        in
        outcome run = inl (IndexError "list index out of range")
        /\ ~ fails_validation run
        /\ effects run = [build (Encoder the_rnn_encoder)]).
Proof.
  split; [reflexivity|]. split.
  - intros a Hok run. subst run.
    apply cnn_succeeds_checks in Hok.
    rewrite <- cnn_checks_empty_decoder in Hok.
    assert (Hseed : MQCNNEstimator.seed (with_decoder_mlp_dim_seq a (Some []))
                    = MQCNNEstimator.seed a) by (destruct a; reflexivity).
    assert (Hdims : MQCNNEstimator.decoder_mlp_dim_seq
                      (with_decoder_mlp_dim_seq a (Some [])) = Some [])
      by (destruct a; reflexivity).
    destruct (cnn_init_accepts _ Hok)
      as [[_ H] | (est & x & rest & Hd & _)].
    + rewrite H, Hseed. simpl. split; [reflexivity|]. split.
      * intros [msg Hmsg]. discriminate Hmsg.
      * eexists. reflexivity.
    + rewrite Hdims in Hd. discriminate Hd.
  - intros a Hok run. subst run.
    apply rnn_succeeds_checks in Hok.
    rewrite <- rnn_checks_empty_decoder in Hok.
    assert (Hdims : MQRNNEstimator.decoder_mlp_dim_seq
                      (rnn_with_decoder_mlp_dim_seq a (Some [])) = Some [])
      by (destruct a; reflexivity).
    destruct (rnn_init_accepts _ Hok)
      as [[_ H] | (est & x & rest & Hd & _)].
    + rewrite H. simpl. split; [reflexivity|]. split.
      * intros [msg Hmsg]. discriminate Hmsg.
      * reflexivity.
    + rewrite Hdims in Hd. discriminate Hd.
Qed.

Lemma empty_decoder_mlp_dim_seq_raises_IndexError_witness :
  MQCNNEstimator.__init__
    (with_decoder_mlp_dim_seq (MQCNNEstimator.defaults "H" 12) (Some []))
  = ([build (Encoder default_cnn_encoder)],
     inl (IndexError "list index out of range"))
  /\ outcome
       (MQRNNEstimator.__init__
          (rnn_with_decoder_mlp_dim_seq (MQRNNEstimator.defaults 12 "H")
             (Some [])))
     = inl (IndexError "list index out of range").
Proof.
  destruct empty_decoder_mlp_dim_seq_raises_IndexError as (_ & H1 & H2).
  split.
  - destruct (H1 (MQCNNEstimator.defaults "H" 12)) as (Ho & _ & enc & He).
    + eexists. reflexivity.
    + reflexivity.
  - destruct (H2 (MQRNNEstimator.defaults 12 "H")) as (Ho & _).
    + eexists. reflexivity.
    + exact Ho.
Defined.

(** * Further properties of the constructors *)

(** ** The decoder dimensions *)

Lemma is_None_or_all_gt_iff (b : Z) (o : option (list Z)) :
  is_None_or o (all (fun d => b <? d)) = true
  <-> (forall l, o = Some l -> Forall (fun d => b < d) l).
Proof.
  split; [|apply is_None_or_all_gt].
  intros H l ->. simpl in H. apply all_Forall in H.
  eapply Forall_impl; [exact H|]. intros d Hd. apply Z.ltb_lt, Hd.
Qed.

Lemma is_None_or_quantiles_iff (o : option (list float)) :
  is_None_or o (all in_unit_interval) = true
  <-> (forall qs, o = Some qs ->
                  Forall (fun d => PrimFloat.leb 0 d = true
                                   /\ PrimFloat.leb d 1 = true) qs).
Proof.
  split.
  - intros H qs ->. simpl in H. apply all_Forall in H.
    eapply Forall_impl; [exact H|]. intros d Hd.
    apply andb_true_iff, Hd.
  - intros H. destruct o as [qs|]; [|reflexivity]. simpl.
    apply all_Forall. eapply Forall_impl; [exact (H qs eq_refl)|].
    intros d Hd. apply andb_true_iff, Hd.
Qed.

Lemma last_nonempty_default (l : list Z) (y d1 d2 : Z) :
  List.last (y :: l) d1 = List.last (y :: l) d2.
Proof.
  revert y. induction l as [|z l IH]; intros y; [reflexivity|].
  change (List.last (z :: l) d1 = List.last (z :: l) d2). apply IH.
Qed.

Lemma last_cons (rest : list Z) (y x : Z) :
  List.last (y :: rest) x = List.last rest y.
Proof.
  destruct rest as [|z rest]; [reflexivity|].
  change (List.last (z :: rest) x = List.last (z :: rest) y).
  apply last_nonempty_default.
Qed.

Lemma removelast_app_last (x : Z) (rest : list Z) :
  (removelast (x :: rest) ++ [List.last rest x])%list = x :: rest.
Proof.
  revert x. induction rest as [|y rest IH]; intros x; [reflexivity|].
  change (removelast (x :: y :: rest)) with (x :: removelast (y :: rest)).
  rewrite (last_cons rest y x), <- app_comm_cons, IH. reflexivity.
Qed.

(** X1: an element of decoder_mlp_dim_seq that is not positive makes the
    constructor of either estimator fail, with nothing built, as soon as the
    prediction length is positive; the message names the sequence
    `mlp_hidden_dimension_seq`, which is not the name of the parameter. *)
Theorem decoder_dimensions_validation :
  (forall (a : MQCNNEstimator.kwargs) (m : list Z) (x : Z),
     0 < MQCNNEstimator.prediction_length a ->
     MQCNNEstimator.decoder_mlp_dim_seq a = Some m ->
     In x m -> x <= 0 ->
     MQCNNEstimator.__init__ a =
       ([], inl (AssertionError
                   "Elements of `mlp_hidden_dimension_seq` should be > 0")))
  /\ (forall (a : MQRNNEstimator.kwargs) (m : list Z) (x : Z),
        0 < MQRNNEstimator.prediction_length a ->
        MQRNNEstimator.decoder_mlp_dim_seq a = Some m ->
        In x m -> x <= 0 ->
        MQRNNEstimator.__init__ a =
          ([], inl (AssertionError
                      "Elements of `mlp_hidden_dimension_seq` should be > 0")))
  /\ mentions "decoder_mlp_dim_seq"
       "Elements of `mlp_hidden_dimension_seq` should be > 0" = false.
Proof.
  split; [|split; [|reflexivity]].
  - intros a m x Hp Hm Hin Hx. unfold MQCNNEstimator.__init__.
    pass_assert ltac:(apply Z.ltb_lt; exact Hp).
    apply bind_assert_false. rewrite Hm. simpl.
    apply (all_gt_false_of_In 0 m x Hin Hx).
  - intros a m x Hp Hm Hin Hx. unfold MQRNNEstimator.__init__.
    pass_assert ltac:(apply Z.ltb_lt; exact Hp).
    apply bind_assert_false. rewrite Hm. simpl.
    apply (all_gt_false_of_In 0 m x Hin Hx).
Qed.

Lemma decoder_dimensions_validation_witness :
  MQCNNEstimator.__init__
    (with_decoder_mlp_dim_seq (MQCNNEstimator.defaults "H" 12)
       (Some [30; 0]))
  = ([], inl (AssertionError
                "Elements of `mlp_hidden_dimension_seq` should be > 0"))
  /\ MQRNNEstimator.__init__
       (rnn_with_decoder_mlp_dim_seq (MQRNNEstimator.defaults 12 "H")
          (Some [-4]))
     = ([], inl (AssertionError
                   "Elements of `mlp_hidden_dimension_seq` should be > 0")).
Proof.
  destruct decoder_dimensions_validation as (H1 & H2 & _). split.
  - apply (H1 _ [30; 0] 0); [simpl; lia | reflexivity | | lia].
    simpl. right. left. reflexivity.
  - apply (H2 _ [-4] (-4)); [simpl; lia | reflexivity | | lia].
    simpl. left. reflexivity.
Defined.

(** X2: in every estimator that is built, the decoder is cut out of the
    decoder dimensions as given (or [30]): its intermediate layers followed
    by its final dimension are that sequence again, and its length is the
    prediction length. *)
Theorem decoder_dimensions_split :
  (forall (a : MQCNNEstimator.kwargs) (est : MQCNNEstimator.t),
     outcome (MQCNNEstimator.__init__ a) = inr est ->
     let dec := ForkingSeq2SeqEstimator.decoder (MQCNNEstimator.super est) in
     (ForkingMLPDecoder.hidden_dimension_sequence dec
      ++ [ForkingMLPDecoder.final_dim dec])%list
     = if_not_None (MQCNNEstimator.decoder_mlp_dim_seq a) [30]
     /\ MQCNNEstimator.self_decoder_mlp_dim_seq est
        = if_not_None (MQCNNEstimator.decoder_mlp_dim_seq a) [30]
     /\ ForkingMLPDecoder.dec_len dec = MQCNNEstimator.prediction_length a
     /\ 0 < ForkingMLPDecoder.final_dim dec)
  /\ (forall (a : MQRNNEstimator.kwargs) (est : MQRNNEstimator.t),
        outcome (MQRNNEstimator.__init__ a) = inr est ->
        let dec :=
          ForkingSeq2SeqEstimator.decoder (MQRNNEstimator.super est) in
        (ForkingMLPDecoder.hidden_dimension_sequence dec
         ++ [ForkingMLPDecoder.final_dim dec])%list
        = if_not_None (MQRNNEstimator.decoder_mlp_dim_seq a) [30]
        /\ MQRNNEstimator.self_decoder_mlp_dim_seq est
           = if_not_None (MQRNNEstimator.decoder_mlp_dim_seq a) [30]
        /\ ForkingMLPDecoder.dec_len dec = MQRNNEstimator.prediction_length a
        /\ 0 < ForkingMLPDecoder.final_dim dec).
Proof.
  assert (Hlast : forall (o : option (list Z)) x rest,
            is_None_or o (all (fun d => 0 <? d)) = true ->
            if_not_None o [30] = x :: rest -> 0 < List.last rest x).
  { intros o x rest Hall Hd.
    assert (HF : Forall (fun d => 0 < d) (x :: rest)).
    { destruct o as [l|]; simpl in *.
      - subst l. apply all_Forall in Hall.
        eapply Forall_impl; [exact Hall|]. intros d Hdd. apply Z.ltb_lt, Hdd.
      - injection Hd as <- <-. repeat constructor. }
    rewrite Forall_forall in HF. apply HF. apply list_elem_of_In.
    clear. revert x. induction rest as [|y rest IH]; intros x.
    - left. reflexivity.
    - right. rewrite last_cons. apply IH. }
  split.
  - intros a est Hest dec. subst dec.
    pose proof (cnn_succeeds_checks a (ex_intro _ est Hest)) as Hc.
    apply cnn_checks_true in Hc. destruct Hc as (_ & Hdec & _).
    destruct (cnn_init_inr a est Hest)
      as (x & rest & Hd & _ & H1 & _ & _ & _ & _ & _ & H7 & _).
    simpl in *. rewrite H7, H1, Hd. simpl.
    split; [apply removelast_app_last|]. split; [reflexivity|].
    split; [reflexivity|]. exact (Hlast _ x rest Hdec Hd).
  - intros a est Hest dec. subst dec.
    pose proof (rnn_succeeds_checks a (ex_intro _ est Hest)) as Hc.
    apply rnn_checks_true in Hc. destruct Hc as (_ & Hdec & _).
    destruct (rnn_init_inr a est Hest)
      as (x & rest & Hd & _ & H1 & _ & _ & H7 & _).
    simpl in *. rewrite H7, H1, Hd. simpl.
    split; [apply removelast_app_last|]. split; [reflexivity|].
    split; [reflexivity|]. exact (Hlast _ x rest Hdec Hd).
Qed.

Lemma decoder_dimensions_split_witness :
  exists est,
    outcome (MQCNNEstimator.__init__
               (with_decoder_mlp_dim_seq (MQCNNEstimator.defaults "H" 12)
                  (Some [64; 32; 16])))
    = inr est
    /\ ForkingMLPDecoder.hidden_dimension_sequence
         (ForkingSeq2SeqEstimator.decoder (MQCNNEstimator.super est))
       = [64; 32]
    /\ ForkingMLPDecoder.final_dim
         (ForkingSeq2SeqEstimator.decoder (MQCNNEstimator.super est)) = 16
    /\ (ForkingMLPDecoder.hidden_dimension_sequence
          (ForkingSeq2SeqEstimator.decoder (MQCNNEstimator.super est))
        ++ [ForkingMLPDecoder.final_dim
              (ForkingSeq2SeqEstimator.decoder (MQCNNEstimator.super est))])%list
       = [64; 32; 16].
Proof.
  eexists. split; [reflexivity|]. split; [reflexivity|].
  split; [reflexivity|].
  exact (proj1 (proj1 decoder_dimensions_split
                  (with_decoder_mlp_dim_seq (MQCNNEstimator.defaults "H" 12)
                     (Some [64; 32; 16])) _ eq_refl)).
Defined.

(** ** When construction goes through *)

Lemma decoder_dims_nonempty_iff (o : option (list Z)) :
  if_not_None o [30] <> [] <-> (forall m, o = Some m -> m <> []).
Proof.
  destruct o as [m|]; simpl.
  - split; [intros H m' [= <-]; exact H | intros H; apply H; reflexivity].
  - split; [intros _ m [=] | intros _; discriminate].
Qed.


Lemma rnn_succeeds_iff_checks (a : MQRNNEstimator.kwargs) :
  succeeds (MQRNNEstimator.__init__ a) <->
  rnn_checks a = true
  /\ if_not_None (MQRNNEstimator.decoder_mlp_dim_seq a) [30] <> [].
Proof.
  split.
  - intros Hs. pose proof (rnn_succeeds_checks a Hs) as Hc.
    split; [exact Hc|]. destruct Hs as [est Hest].
    destruct (rnn_init_inr a est Hest) as (x & rest & Hd & _).
    simpl in Hd. rewrite Hd. discriminate.
  - intros [Hc Hne]. destruct (rnn_init_succeeds a Hc Hne) as (est & H & _).
    exists est. exact H.
Qed.



(** X4: the arguments with which [MQRNNEstimator.__init__] runs to its end
    are exactly those with a positive prediction length, a decoder sequence
    that is omitted or non-empty with positive elements, and quantiles
    omitted or within [0, 1]; context_length, trainer and scaling are not
    looked at.  (The blocks and the base class are taken to accept what they
    are given.) *)
Theorem rnn_init_succeeds_iff (a : MQRNNEstimator.kwargs) :
  succeeds (MQRNNEstimator.__init__ a) <->
  0 < MQRNNEstimator.prediction_length a
  /\ (forall m, MQRNNEstimator.decoder_mlp_dim_seq a = Some m ->
                m <> [] /\ Forall (fun d => 0 < d) m)
  /\ (forall qs, MQRNNEstimator.quantiles a = Some qs ->
                 Forall (fun d => PrimFloat.leb 0 d = true
                                  /\ PrimFloat.leb d 1 = true) qs).
Proof.
  rewrite rnn_succeeds_iff_checks, rnn_checks_true.
  rewrite is_None_or_all_gt_iff, is_None_or_quantiles_iff.
  rewrite decoder_dims_nonempty_iff.
  split.
  - intros ((Hp & Hm & Hq) & Hne).
    repeat split; try assumption; [apply (Hne m H) | apply (Hm m H)].
  - intros (Hp & Hm & Hq).
    split; [repeat split; try assumption|].
    + intros l Hl. apply (Hm l Hl).
    + intros m Hl. apply (Hm m Hl).
Qed.

Lemma rnn_init_succeeds_iff_witness :
  succeeds
    (MQRNNEstimator.__init__
       (rnn_with_quantiles
          (rnn_with_decoder_mlp_dim_seq (MQRNNEstimator.defaults 7 "D")
             (Some [20; 10]))
          (Some [0.5; 0.9]%float))).
Proof.
  apply rnn_init_succeeds_iff. simpl.
  split; [lia|].
  split; [intros m [= <-]; split; [discriminate | repeat constructor]|].
  intros qs [= <-]. repeat constructor.
Defined.

(** ** The exceptions of the constructors *)



(** ** What a built estimator satisfies *)

(** X6: in every MQCNNEstimator that is built, the channel, dilation and
    kernel-size sequences have one length, and that length is 3 as soon as
    one of the three was omitted, because the defaults have length 3; so a
    call that gives only channels_seq, of a length other than 3, fails its
    checks. *)
Theorem cnn_sequences_one_length :
  (forall (a : MQCNNEstimator.kwargs) (est : MQCNNEstimator.t),
     outcome (MQCNNEstimator.__init__ a) = inr est ->
     length (MQCNNEstimator.self_channels_seq est)
     = length (MQCNNEstimator.self_dilation_seq est)
     /\ length (MQCNNEstimator.self_dilation_seq est)
        = length (MQCNNEstimator.self_kernel_size_seq est)
     /\ (MQCNNEstimator.channels_seq a = None
         \/ MQCNNEstimator.dilation_seq a = None
         \/ MQCNNEstimator.kernel_size_seq a = None ->
         length (MQCNNEstimator.self_channels_seq est) = 3%nat))
  /\ (forall (f : string) (p : Z) (c : list Z),
        length c <> 3%nat ->
        effects (MQCNNEstimator.__init__
                   (with_channels_seq (MQCNNEstimator.defaults f p) (Some c)))
        = []
        /\ fails_validation
             (MQCNNEstimator.__init__
                (with_channels_seq (MQCNNEstimator.defaults f p) (Some c)))).
Proof.
  split.
  - intros a est Hest.
    pose proof (cnn_succeeds_checks a (ex_intro _ est Hest)) as Hc.
    apply cnn_checks_true in Hc.
    destruct Hc as (_ & _ & _ & _ & _ & _ & Hl1 & Hl2).
    destruct (cnn_init_inr a est Hest)
      as (x & rest & _ & _ & _ & H2 & H3 & H4 & _).
    rewrite H2, H3, H4. split; [exact Hl1|]. split; [exact Hl2|].
    intros [E | [E | E]]; rewrite E in *; simpl in *; congruence.
  - intros f p c Hlen. apply cnn_init_rejects.
    destruct (cnn_checks _) eqn:E; [|reflexivity]. exfalso.
    apply cnn_checks_true in E.
    destruct E as (_ & _ & _ & _ & _ & _ & Hl1 & _).
    simpl in Hl1. apply Hlen, Hl1.
Qed.

Lemma cnn_sequences_one_length_witness :
  (exists est,
     outcome (MQCNNEstimator.__init__ (cnn_call "H" 12 [8; 16] [1; 2] [2; 5]))
     = inr est
     /\ length (MQCNNEstimator.self_channels_seq est)
        = length (MQCNNEstimator.self_dilation_seq est))
  /\ fails_validation
       (MQCNNEstimator.__init__
          (with_channels_seq (MQCNNEstimator.defaults "H" 12)
             (Some [30; 30]))).
Proof.
  destruct cnn_sequences_one_length as [H1 H2]. split.
  - eexists. split; [reflexivity|].
    apply (H1 (cnn_call "H" 12 [8; 16] [1; 2] [2; 5])). reflexivity.
  - apply (H2 "H" 12 [30; 30]). simpl. lia.
Defined.

Lemma deciles_in_unit_interval :
  Forall (fun d => PrimFloat.leb 0 d = true /\ PrimFloat.leb d 1 = true)
    deciles.
Proof. unfold deciles. repeat constructor. Qed.

Lemma Forall_if_not_None {A : Type} (P : A -> Prop) (o : option (list A))
  (dflt : list A) :
  (forall l, o = Some l -> Forall P l) ->
  Forall P dflt ->
  Forall P (if_not_None o dflt).
Proof.
  intros H Hd. destruct o as [l|]; simpl; [apply H; reflexivity | exact Hd].
Qed.

Lemma cnn_succeeds_props (a : MQCNNEstimator.kwargs) :
  succeeds (MQCNNEstimator.__init__ a) ->
  0 < MQCNNEstimator.prediction_length a
  /\ (forall m, MQCNNEstimator.decoder_mlp_dim_seq a = Some m ->
                Forall (fun d => 0 < d) m)
  /\ (forall c, MQCNNEstimator.channels_seq a = Some c ->
                Forall (fun d => 0 < d) c)
  /\ (forall d, MQCNNEstimator.dilation_seq a = Some d ->
                Forall (fun x => 0 < x) d)
  /\ (forall k, MQCNNEstimator.kernel_size_seq a = Some k ->
                Forall (fun x => 1 < x) k)
  /\ (forall qs, MQCNNEstimator.quantiles a = Some qs ->
                 Forall (fun d => PrimFloat.leb 0 d = true
                                  /\ PrimFloat.leb d 1 = true) qs).
Proof.
  intros Hs. apply cnn_succeeds_checks, cnn_checks_true in Hs.
  rewrite !is_None_or_all_gt_iff, is_None_or_quantiles_iff in Hs. tauto.
Qed.

Lemma rnn_succeeds_props (a : MQRNNEstimator.kwargs) :
  succeeds (MQRNNEstimator.__init__ a) ->
  0 < MQRNNEstimator.prediction_length a
  /\ (forall m, MQRNNEstimator.decoder_mlp_dim_seq a = Some m ->
                Forall (fun d => 0 < d) m)
  /\ (forall qs, MQRNNEstimator.quantiles a = Some qs ->
                 Forall (fun d => PrimFloat.leb 0 d = true
                                  /\ PrimFloat.leb d 1 = true) qs).
Proof.
  intros Hs. apply rnn_succeeds_checks, rnn_checks_true in Hs.
  rewrite is_None_or_all_gt_iff, is_None_or_quantiles_iff in Hs. tauto.
Qed.

(** X7: every estimator that is built satisfies the constraints of its
    configuration, whether a sequence was given or defaulted: positive
    prediction length, a non-empty decoder sequence of positive dimensions,
    positive channels and dilations, kernel sizes greater than one, and
    quantiles within [0, 1]. *)
Theorem built_estimator_invariants :
  (forall (a : MQCNNEstimator.kwargs) (est : MQCNNEstimator.t),
     outcome (MQCNNEstimator.__init__ a) = inr est ->
     0 < ForkingSeq2SeqEstimator.prediction_length (MQCNNEstimator.super est)
     /\ MQCNNEstimator.self_decoder_mlp_dim_seq est <> []
     /\ Forall (fun d => 0 < d) (MQCNNEstimator.self_decoder_mlp_dim_seq est)
     /\ Forall (fun d => 0 < d) (MQCNNEstimator.self_channels_seq est)
     /\ Forall (fun d => 0 < d) (MQCNNEstimator.self_dilation_seq est)
     /\ Forall (fun d => 1 < d) (MQCNNEstimator.self_kernel_size_seq est)
     /\ Forall (fun d => PrimFloat.leb 0 d = true /\ PrimFloat.leb d 1 = true)
          (MQCNNEstimator.self_quantiles est))
  /\ (forall (a : MQRNNEstimator.kwargs) (est : MQRNNEstimator.t),
        outcome (MQRNNEstimator.__init__ a) = inr est ->
        0 < ForkingSeq2SeqEstimator.prediction_length
              (MQRNNEstimator.super est)
        /\ MQRNNEstimator.self_decoder_mlp_dim_seq est <> []
        /\ Forall (fun d => 0 < d)
             (MQRNNEstimator.self_decoder_mlp_dim_seq est)
        /\ Forall (fun d => PrimFloat.leb 0 d = true
                            /\ PrimFloat.leb d 1 = true)
             (MQRNNEstimator.self_quantiles est)).
Proof.
  split.
  - intros a est Hest.
    pose proof (cnn_succeeds_props a (ex_intro _ est Hest))
      as (Hp & Hm & Hc & Hd & Hk & Hq).
    assert (Hpl : ForkingSeq2SeqEstimator.prediction_length
                    (MQCNNEstimator.super est)
                  = MQCNNEstimator.prediction_length a).
    { revert Hest. unfold MQCNNEstimator.__init__.
      repeat (split_assert; [|discriminate]).
      rewrite when_truthy_seed, bind_effects_value.
      destruct (if_not_None (MQCNNEstimator.decoder_mlp_dim_seq a) [30]);
        simpl; [discriminate|]. intros [= <-]. reflexivity. }
    destruct (cnn_init_inr a est Hest)
      as (x & rest & Hdims & _ & H1 & H2 & H3 & H4 & H5 & _).
    simpl in Hdims. rewrite Hpl, H1, H2, H3, H4, H5.
    split; [exact Hp|]. split; [rewrite Hdims; discriminate|].
    split; [apply Forall_if_not_None; [exact Hm | repeat constructor]|].
    split; [apply Forall_if_not_None; [exact Hc | repeat constructor]|].
    split; [apply Forall_if_not_None; [exact Hd | repeat constructor]|].
    split; [apply Forall_if_not_None; [exact Hk | repeat constructor]|].
    apply Forall_if_not_None; [exact Hq | exact deciles_in_unit_interval].
  - intros a est Hest.
    pose proof (rnn_succeeds_props a (ex_intro _ est Hest))
      as (Hp & Hm & Hq).
    assert (Hpl : ForkingSeq2SeqEstimator.prediction_length
                    (MQRNNEstimator.super est)
                  = MQRNNEstimator.prediction_length a).
    { revert Hest. unfold MQRNNEstimator.__init__.
      repeat (split_assert; [|discriminate]).
      destruct (if_not_None (MQRNNEstimator.decoder_mlp_dim_seq a) [30]);
        simpl; [discriminate|]. intros [= <-]. reflexivity. }
    destruct (rnn_init_inr a est Hest)
      as (x & rest & Hdims & _ & H1 & H2 & _).
    simpl in Hdims. rewrite Hpl, H1, H2.
    split; [exact Hp|]. split; [rewrite Hdims; discriminate|].
    split; [apply Forall_if_not_None; [exact Hm | repeat constructor]|].
    apply Forall_if_not_None; [exact Hq | exact deciles_in_unit_interval].
Qed.

Lemma built_estimator_invariants_witness :
  exists est,
    outcome (MQCNNEstimator.__init__
               (with_kernel_size_seq (MQCNNEstimator.defaults "H" 12)
                  (Some [2; 4; 9])))
    = inr est
    /\ Forall (fun d => 1 < d) (MQCNNEstimator.self_kernel_size_seq est)
    /\ Forall (fun d => 0 < d) (MQCNNEstimator.self_channels_seq est)
    /\ Forall (fun d => PrimFloat.leb 0 d = true /\ PrimFloat.leb d 1 = true)
         (MQCNNEstimator.self_quantiles est).
Proof.
  eexists. split; [reflexivity|].
  destruct (proj1 built_estimator_invariants
              (with_kernel_size_seq (MQCNNEstimator.defaults "H" 12)
                 (Some [2; 4; 9])) _ eq_refl)
    as (_ & _ & _ & Hc & _ & Hk & Hq).
  split; [exact Hk|]. split; [exact Hc | exact Hq].
Defined.

(** ** The encoder *)

(** X8: the encoder of a built estimator always takes static and dynamic
    features, whatever use_feat_static_cat and use_feat_dynamic_real say;
    those two flags only reach the base class (and MQRNNEstimator does not
    pass them at all).  The recurrent encoder is the same for all arguments:
    a bidirectional GRU of one layer and hidden size 50. *)
Theorem encoder_wiring :
  (forall (a : MQCNNEstimator.kwargs) (est : MQCNNEstimator.t),
     outcome (MQCNNEstimator.__init__ a) = inr est ->
     let base := MQCNNEstimator.super est in
     (exists e,
        ForkingSeq2SeqEstimator.encoder base = CNN_encoder e
        /\ HierarchicalCausalConv1DEncoder.use_static_feat e = true
        /\ HierarchicalCausalConv1DEncoder.use_dynamic_feat e = true
        /\ HierarchicalCausalConv1DEncoder.use_residual e
           = MQCNNEstimator.use_residual a
        /\ HierarchicalCausalConv1DEncoder.channels_seq e
           = MQCNNEstimator.self_channels_seq est
        /\ HierarchicalCausalConv1DEncoder.dilation_seq e
           = MQCNNEstimator.self_dilation_seq est
        /\ HierarchicalCausalConv1DEncoder.kernel_size_seq e
           = MQCNNEstimator.self_kernel_size_seq est)
     /\ ForkingSeq2SeqEstimator.use_feat_static_cat base
        = Some (MQCNNEstimator.use_feat_static_cat a)
     /\ ForkingSeq2SeqEstimator.use_feat_dynamic_real base
        = Some (MQCNNEstimator.use_feat_dynamic_real a))
  /\ (forall (a : MQRNNEstimator.kwargs) (est : MQRNNEstimator.t),
        outcome (MQRNNEstimator.__init__ a) = inr est ->
        let base := MQRNNEstimator.super est in
        ForkingSeq2SeqEstimator.encoder base
        = RNN_encoder {|
            RNNEncoder.mode := "gru";
            RNNEncoder.hidden_size := 50;
            RNNEncoder.num_layers := 1;
            RNNEncoder.bidirectional := true;
            RNNEncoder.prefix := "encoder_";
            RNNEncoder.use_static_feat := true;
            RNNEncoder.use_dynamic_feat := true |}
        /\ ForkingSeq2SeqEstimator.use_feat_static_cat base = None
        /\ ForkingSeq2SeqEstimator.use_feat_dynamic_real base = None).
Proof.
  split.
  - intros a est Hest base. subst base.
    destruct (cnn_init_inr a est Hest)
      as (x & rest & _ & _ & _ & H2 & H3 & H4 & _ & H6 & _).
    simpl in H6. rewrite H6, H2, H3, H4.
    split; [eexists; split; [reflexivity|]; repeat split|].
    revert Hest. unfold MQCNNEstimator.__init__.
    repeat (split_assert; [|discriminate]).
    rewrite when_truthy_seed, bind_effects_value.
    destruct (if_not_None (MQCNNEstimator.decoder_mlp_dim_seq a) [30]);
      simpl; [discriminate|]. intros [= <-]. split; reflexivity.
  - intros a est Hest base. subst base.
    destruct (rnn_init_inr a est Hest) as (x & rest & _ & _ & _ & _ & H5 & _).
    split; [exact H5|].
    revert Hest. unfold MQRNNEstimator.__init__.
    repeat (split_assert; [|discriminate]).
    destruct (if_not_None (MQRNNEstimator.decoder_mlp_dim_seq a) [30]);
      simpl; [discriminate|]. intros [= <-]. split; reflexivity.
Qed.

Lemma encoder_wiring_witness :
  exists est e,
    outcome (MQCNNEstimator.__init__ (MQCNNEstimator.defaults "H" 12))
    = inr est
    /\ MQCNNEstimator.use_feat_static_cat (MQCNNEstimator.defaults "H" 12)
       = false
    /\ ForkingSeq2SeqEstimator.encoder (MQCNNEstimator.super est)
       = CNN_encoder e
    /\ HierarchicalCausalConv1DEncoder.use_static_feat e = true
    /\ HierarchicalCausalConv1DEncoder.use_dynamic_feat e = true.
Proof.
  destruct (proj1 encoder_wiring (MQCNNEstimator.defaults "H" 12) _ eq_refl)
    as ((e & He & Hs & Hd & _) & _).
  eexists _, e. split; [reflexivity|]. split; [reflexivity|].
  split; [exact He|]. split; [exact Hs | exact Hd].
Defined.

(** ** Seeding, continued *)

(** X9: a seed between 1 and 2^32 - 1 (the seeds numpy accepts, 0 apart) is
    given to numpy and then to MXNet as the first two effects of every
    MQCNNEstimator call that passes the checks, before the encoder or
    anything else is built, also when the call later stops at the empty
    decoder sequence; afterwards both generators hold that seed. *)
Theorem seed_propagated_before_building (a : MQCNNEstimator.kwargs) (s : Z)
  (st : random_state) :
  MQCNNEstimator.seed a = Some s ->
  0 < s < 2 ^ 32 ->
  ~ fails_validation (MQCNNEstimator.__init__ a) ->
  exists builds,
    effects (MQCNNEstimator.__init__ a)
    = np_random_seed s :: mx_random_seed s :: builds
    /\ builds <> []
    /\ forallb is_build builds = true
    /\ apply_effects st (effects (MQCNNEstimator.__init__ a))
       = {| np_random := Some s; mx_random := Some s |}.
Proof.
  intros Hs Hrange Hnf.
  assert (Hz : (s =? 0) = false) by (apply Z.eqb_neq; lia).
  destruct (cnn_init_effects a) as [H | (builds & H & Hne & Hb)].
  - exfalso. apply Hnf. apply cnn_init_AssertionError_iff.
    destruct (cnn_checks a) eqn:E; [|reflexivity].
    destruct (cnn_init_accepts a E)
      as [[_ H'] | (est & x & rest & _ & H' & _)];
      rewrite H' in H; simpl in H; rewrite Hs in H; simpl in H;
      rewrite Hz in H; discriminate H.
  - exists builds. rewrite H, Hs. simpl. rewrite Hz. simpl.
    split; [reflexivity|]. split; [exact Hne|]. split; [exact Hb|].
    change (apply_effects
              {| np_random := Some s; mx_random := Some s |} builds
            = {| np_random := Some s; mx_random := Some s |}).
    apply apply_effects_no_seed, builds_no_seed, Hb.
Qed.

Lemma seed_propagated_before_building_witness :
  exists builds,
    effects (MQCNNEstimator.__init__
               (with_seed (MQCNNEstimator.defaults "H" 12) (Some 42)))
    = np_random_seed 42 :: mx_random_seed 42 :: builds
    /\ builds <> []
    /\ forallb is_build builds = true
    /\ apply_effects {| np_random := None; mx_random := Some 1 |}
         (effects (MQCNNEstimator.__init__
                     (with_seed (MQCNNEstimator.defaults "H" 12) (Some 42))))
       = {| np_random := Some 42; mx_random := Some 42 |}.
Proof.
  apply (seed_propagated_before_building
           (with_seed (MQCNNEstimator.defaults "H" 12) (Some 42)) 42).
  - reflexivity.
  - lia.
  - intros [msg Hmsg]. discriminate Hmsg.
Defined.

(** X10: MQRNNEstimator has no seed and never seeds a generator, and a
    MQCNNEstimator call without seed does not either: whatever the other
    arguments and however the call ends, the random state of the process is
    the one before the call. *)
Theorem no_seed_no_seeding :
  (forall (a : MQRNNEstimator.kwargs) (st : random_state),
     List.filter is_seed (effects (MQRNNEstimator.__init__ a)) = []
     /\ apply_effects st (effects (MQRNNEstimator.__init__ a)) = st)
  /\ (forall (a : MQCNNEstimator.kwargs) (st : random_state),
        List.filter is_seed
          (effects (MQCNNEstimator.__init__ (with_seed a None))) = []
        /\ apply_effects st
             (effects (MQCNNEstimator.__init__ (with_seed a None))) = st).
Proof.
  assert (Hfilter : forall t, forallb is_build t = true ->
                              List.filter is_seed t = []).
  { induction t as [|ef t IH]; intros H; [reflexivity|].
    simpl in H. apply andb_true_iff in H. destruct H as [Hef Ht].
    destruct ef; simpl in Hef; try discriminate Hef. simpl. apply IH, Ht. }
  split.
  - intros a st. destruct (rnn_checks a) eqn:E.
    + destruct (rnn_init_accepts a E)
        as [[_ H] | (est & x & rest & _ & H & _)]; rewrite H;
        split; reflexivity.
    + destruct (rnn_init_rejects a E) as [H _]. rewrite H. split; reflexivity.
  - intros a st.
    assert (Hs : MQCNNEstimator.seed (with_seed a None) = None)
      by (destruct a; reflexivity).
    destruct (cnn_init_effects (with_seed a None))
      as [H | (builds & H & _ & Hb)]; rewrite H; [split; reflexivity|].
    rewrite Hs. simpl. split; [apply Hfilter, Hb|].
    apply apply_effects_no_seed, builds_no_seed, Hb.
Qed.

(** ** Quantiles, continued *)

Lemma SFcompare_refl (f : spec_float) :
  f <> S754_nan -> SFcompare f f = Some Eq.
Proof.
  destruct f as [s|s| |s m e]; simpl; intros H;
    try reflexivity; try (destruct s; reflexivity); [contradiction|].
  rewrite Z.compare_refl.
  change (PosDef.Pos.compare_cont Eq m m) with (Pos.compare m m).
  rewrite Pos.compare_refl. destruct s; reflexivity.
Qed.

(** A NaN is not within the interval: both comparisons are false. *)
Lemma nan_outside_unit_interval (d : float) :
  PrimFloat.is_nan d = true -> in_unit_interval d = false.
Proof.
  unfold PrimFloat.is_nan, in_unit_interval. intros H.
  apply negb_true_iff in H. rewrite FloatAxioms.eqb_spec in H.
  assert (Hnan : Prim2SF d = S754_nan).
  { destruct (Prim2SF d) as [s|s| |s m e] eqn:E; try reflexivity;
      unfold SFeqb in H; rewrite SFcompare_refl in H by discriminate;
      discriminate H. }
  rewrite leb_spec, Hnan. reflexivity.
Qed.

(** X11: once the checks before it pass, a quantile that is below 0, above
    1 or a NaN makes the constructor of either estimator fail, with nothing
    built, with the message about `quantiles`. *)
Theorem quantile_rejected_message :
  (forall (a : MQCNNEstimator.kwargs) (qs : list float) (d : float),
     succeeds (MQCNNEstimator.__init__ (with_quantiles a None)) ->
     In d qs ->
     PrimFloat.ltb d 0 = true \/ PrimFloat.ltb 1 d = true
     \/ PrimFloat.is_nan d = true ->
     MQCNNEstimator.__init__ (with_quantiles a (Some qs))
     = ([], inl (AssertionError
                   "Elements of `quantiles` should be >= 0 and <= 1")))
  /\ (forall (a : MQRNNEstimator.kwargs) (qs : list float) (d : float),
        succeeds (MQRNNEstimator.__init__ (rnn_with_quantiles a None)) ->
        In d qs ->
        PrimFloat.ltb d 0 = true \/ PrimFloat.ltb 1 d = true
        \/ PrimFloat.is_nan d = true ->
        MQRNNEstimator.__init__ (rnn_with_quantiles a (Some qs))
        = ([], inl (AssertionError
                      "Elements of `quantiles` should be >= 0 and <= 1"))).
Proof.
  assert (Hbad : forall qs d, In d qs ->
            PrimFloat.ltb d 0 = true \/ PrimFloat.ltb 1 d = true
            \/ PrimFloat.is_nan d = true ->
            all in_unit_interval qs = false).
  { intros qs d Hin Hd. apply (all_false_of_In _ qs d Hin).
    destruct Hd as [Hd | [Hd | Hd]].
    - apply outside_unit_interval. left. exact Hd.
    - apply outside_unit_interval. right. exact Hd.
    - apply nan_outside_unit_interval, Hd. }
  split.
  - intros a qs d Hok Hin Hd.
    apply cnn_succeeds_checks, cnn_checks_true in Hok.
    destruct a; simpl in Hok.
    destruct Hok as (Hp & Hm & Hc & Hdi & Hk & _ & _).
    unfold MQCNNEstimator.__init__. simpl.
    pass_assert ltac:(apply Z.ltb_lt; exact Hp).
    pass_assert ltac:(exact Hm). pass_assert ltac:(exact Hc).
    pass_assert ltac:(exact Hdi). pass_assert ltac:(exact Hk).
    apply bind_assert_false. exact (Hbad qs d Hin Hd).
  - intros a qs d Hok Hin Hd.
    apply rnn_succeeds_checks, rnn_checks_true in Hok.
    destruct a; simpl in Hok. destruct Hok as (Hp & Hm & _).
    unfold MQRNNEstimator.__init__. simpl.
    pass_assert ltac:(apply Z.ltb_lt; exact Hp).
    pass_assert ltac:(exact Hm).
    apply bind_assert_false. exact (Hbad qs d Hin Hd).
Qed.

Lemma quantile_rejected_message_witness :
  MQCNNEstimator.__init__
    (with_quantiles (MQCNNEstimator.defaults "H" 12) (Some [0.5; nan]%float))
  = ([], inl (AssertionError
                "Elements of `quantiles` should be >= 0 and <= 1"))
  /\ MQRNNEstimator.__init__
       (rnn_with_quantiles (MQRNNEstimator.defaults 12 "H")
          (Some [infinity]%float))
     = ([], inl (AssertionError
                   "Elements of `quantiles` should be >= 0 and <= 1")).
Proof.
  destruct quantile_rejected_message as [H1 H2]. split.
  - apply (H1 (MQCNNEstimator.defaults "H" 12) [0.5; nan]%float nan).
    + eexists. reflexivity.
    + simpl. right. left. reflexivity.
    + right. right. reflexivity.
  - apply (H2 (MQRNNEstimator.defaults 12 "H") [infinity]%float infinity).
    + eexists. reflexivity.
    + simpl. left. reflexivity.
    + right. left. reflexivity.
Defined.

(** ** The length mismatch, continued *)

(** X12: when the elements of the three encoder sequences are valid but
    their lengths are not all equal, the failed assertion reports the three
    lengths, in the order channels, dilations, kernel sizes; with only the
    last two lengths different the check fails just the same. *)
Theorem cnn_mismatch_reports_lengths (f : string) (p : Z) (c d k : list Z) :
  0 < p ->
  Forall (fun x => 0 < x) c ->
  Forall (fun x => 0 < x) d ->
  Forall (fun x => 1 < x) k ->
  length c <> length d \/ length d <> length k ->
  MQCNNEstimator.__init__ (cnn_call f p c d k)
  = ([], inl (AssertionError
                ("mismatch CNN configurations: " ++ str_of_int (len c)
                 ++ " vs. " ++ str_of_int (len d)
                 ++ " vs. " ++ str_of_int (len k)))).
Proof.
  intros Hp Hc Hd Hk Hlen. unfold MQCNNEstimator.__init__.
  cbn [cnn_call with_kernel_size_seq with_dilation_seq with_channels_seq
       MQCNNEstimator.defaults MQCNNEstimator.prediction_length
       MQCNNEstimator.decoder_mlp_dim_seq MQCNNEstimator.channels_seq
       MQCNNEstimator.dilation_seq MQCNNEstimator.kernel_size_seq
       MQCNNEstimator.quantiles is_None_or if_not_None].
  pass_assert ltac:(apply Z.ltb_lt; exact Hp).
  pass_assert ltac:(reflexivity).
  pass_assert ltac:(apply all_gt_of_Forall; exact Hc).
  pass_assert ltac:(apply all_gt_of_Forall; exact Hd).
  pass_assert ltac:(apply all_gt_of_Forall; exact Hk).
  pass_assert ltac:(reflexivity).
  apply bind_assert_false. apply andb_false_iff.
  destruct Hlen as [H | H]; [left | right];
    apply not_true_is_false; intros E; apply len_eqb in E; contradiction.
Qed.

Lemma cnn_mismatch_reports_lengths_witness :
  MQCNNEstimator.__init__ (cnn_call "H" 12 [8; 16] [1; 2] [2; 5; 3])
  = ([], inl (AssertionError "mismatch CNN configurations: 2 vs. 2 vs. 3")).
Proof.
  apply (cnn_mismatch_reports_lengths "H" 12 [8; 16] [1; 2] [2; 5; 3]).
  - lia.
  - repeat constructor.
  - repeat constructor.
  - repeat constructor.
  - right. simpl. lia.
Defined.

(** ** Derived fields, continued *)

(** The dictionary and the log record in terms of the statistics. *)
Lemma derive_auto_fields_eq {Dataset : Type}
  (calculate_dataset_statistics : Dataset -> Py DatasetStatistics.t)
  (train_iter : Dataset) (t : list effect) (stats : DatasetStatistics.t) :
  calculate_dataset_statistics train_iter = (t, inr stats) ->
  let dynamic_real := 0 <? DatasetStatistics.num_feat_dynamic_real stats in
  let static_cat := bool_of_list (DatasetStatistics.feat_static_cat stats) in
  let card := map (fun cats : gset Z => Z.of_nat (size cats))
                  (DatasetStatistics.feat_static_cat stats) in
  MQCNNEstimator.derive_auto_fields calculate_dataset_statistics train_iter
  = ((t ++ [logger_info
              ("gluonts[from_inputs]: use_feat_dynamic_real set to '"
               ++ str_of_bool dynamic_real
               ++ "', and use use_feat_static_cat to '"
               ++ str_of_bool static_cat
               ++ "' with cardinality of '" ++ str_of_int_list card
               ++ "'")])%list,
     inr (<["cardinality" := MQCNNEstimator.VList card]>
            (<["use_feat_static_cat" := MQCNNEstimator.VBool static_cat]>
               (<["use_feat_dynamic_real" :=
                    MQCNNEstimator.VBool dynamic_real]> ∅)))).
Proof.
  intros Hstats. unfold MQCNNEstimator.derive_auto_fields.
  rewrite Hstats, bind_effects_value.
  unfold MQCNNEstimator.getitem.
  rewrite lookup_insert_ne by discriminate.
  rewrite lookup_insert_ne by discriminate.
  rewrite lookup_insert_eq, bind_ret_l.
  rewrite lookup_insert_ne by discriminate.
  rewrite lookup_insert_eq, bind_ret_l.
  rewrite lookup_insert_eq, bind_ret_l.
  rewrite bind_perform. reflexivity.
Qed.

(** X13: derive_auto_fields raises exactly when the statistics function
    raises, with the same exception and without a log record; it has no
    failure of its own (no KeyError from reading back its dictionary), also
    for statistics with no feature at all. *)
Theorem derive_auto_fields_raises_iff {Dataset : Type}
  (calculate_dataset_statistics : Dataset -> Py DatasetStatistics.t)
  (train_iter : Dataset) (e : exception) :
  (outcome (MQCNNEstimator.derive_auto_fields calculate_dataset_statistics
              train_iter) = inl e
   <-> outcome (calculate_dataset_statistics train_iter) = inl e)
  /\ (outcome (calculate_dataset_statistics train_iter) = inl e ->
      effects (MQCNNEstimator.derive_auto_fields calculate_dataset_statistics
                 train_iter)
      = effects (calculate_dataset_statistics train_iter)).
Proof.
  destruct (calculate_dataset_statistics train_iter) as [t [e' | stats]] eqn:E.
  - rewrite (derive_auto_fields_raises _ _ _ _ E). simpl.
    split; [split; intros [= ->]; reflexivity|]. intros _. reflexivity.
  - rewrite (derive_auto_fields_eq _ _ _ _ E). simpl.
    split; [split; discriminate | discriminate].
Qed.

Lemma derive_auto_fields_raises_iff_witness :
  outcome (MQCNNEstimator.derive_auto_fields
             (fun _ : unit =>
                perform (logger_info "reading") ;;
                raise (IndexError "list index out of range"))
             tt)
  = inl (IndexError "list index out of range")
  /\ effects (MQCNNEstimator.derive_auto_fields
                (fun _ : unit =>
                   perform (logger_info "reading") ;;
                   raise (A := DatasetStatistics.t)
                     (IndexError "list index out of range"))
                tt)
     = [logger_info "reading"].
Proof.
  destruct (derive_auto_fields_raises_iff
              (fun _ : unit =>
                 perform (logger_info "reading") ;;
                 raise (A := DatasetStatistics.t)
                   (IndexError "list index out of range"))
              tt (IndexError "list index out of range")) as [[_ H1] H2].
  split; [apply H1; reflexivity | apply H2; reflexivity].
Defined.

(** X14: the fields derived from one set of statistics agree with each
    other: use_feat_static_cat is True exactly when cardinality is not
    empty, cardinality has one entry per static categorical feature, in
    order, each the size of that feature's set of values, hence never
    negative, and 0 for a feature with no value. *)
Theorem derived_fields_consistent {Dataset : Type}
  (calculate_dataset_statistics : Dataset -> Py DatasetStatistics.t)
  (train_iter : Dataset) (t : list effect) (stats : DatasetStatistics.t) :
  calculate_dataset_statistics train_iter = (t, inr stats) ->
  exists (auto_fields : gmap string MQCNNEstimator.value) (static_cat : bool)
         (card : list Z),
    outcome (MQCNNEstimator.derive_auto_fields calculate_dataset_statistics
               train_iter) = inr auto_fields
    /\ auto_fields !! "use_feat_static_cat"
       = Some (MQCNNEstimator.VBool static_cat)
    /\ auto_fields !! "cardinality" = Some (MQCNNEstimator.VList card)
    /\ (static_cat = true <-> card <> [])
    /\ length card = length (DatasetStatistics.feat_static_cat stats)
    /\ Forall (fun n => 0 <= n) card
    /\ (forall (i : nat) (cats : gset Z),
          DatasetStatistics.feat_static_cat stats !! i = Some cats ->
          card !! i = Some (Z.of_nat (size cats)))
    /\ (forall i : nat,
          DatasetStatistics.feat_static_cat stats !! i
          = Some (∅ : gset Z) ->
          card !! i = Some 0).
Proof.
  intros Hstats. rewrite (derive_auto_fields_eq _ _ _ _ Hstats). simpl.
  eexists _, _, _. split; [reflexivity|].
  split; [rewrite lookup_insert_ne by discriminate; apply lookup_insert_eq|].
  split; [apply lookup_insert_eq|].
  split.
  { destruct (DatasetStatistics.feat_static_cat stats); simpl;
      split; congruence. }
  split; [apply length_map|].
  split.
  { apply Forall_forall. intros n Hn. apply list_elem_of_In in Hn.
    apply in_map_iff in Hn. destruct Hn as (cats & <- & _). lia. }
  split.
  - intros i cats Hi. rewrite list_lookup_fmap, Hi. reflexivity.
  - intros i Hi. rewrite list_lookup_fmap, Hi. reflexivity.
Qed.

Lemma derived_fields_consistent_witness :
  exists (auto_fields : gmap string MQCNNEstimator.value) (card : list Z),
    outcome (MQCNNEstimator.derive_auto_fields
               (fun _ : unit => ret example_statistics) tt)
    = inr auto_fields
    /\ auto_fields !! "cardinality" = Some (MQCNNEstimator.VList card)
    /\ length card = 2%nat
    /\ Forall (fun n => 0 <= n) card.
Proof.
  destruct (derived_fields_consistent
              (fun _ : unit => ret example_statistics) tt [] example_statistics
              eq_refl)
    as (auto_fields & b & card & H1 & _ & H3 & _ & H5 & H6 & _).
  exists auto_fields, card. split; [exact H1|]. split; [exact H3|].
  split; [exact H5 | exact H6].
Defined.

(** ** Loading the module, continued *)

(** X15: the NameError comes from the definition of MQCNNEstimator, the
    first class of the module, so whatever statements follow it are never
    executed: MQRNNEstimator, whose own signature only uses imported names,
    is never defined either, although the imports followed by its class
    definition alone load. *)
Theorem import_fails_before_second_class :
  (forall rest : list stmt,
     exec_module []
       (module_imports
        ++ ClassDef "MQCNNEstimator" ["ForkingSeq2SeqEstimator"]
             [MQCNNEstimator_init_def; derive_auto_fields_def]
           :: rest)%list
     = inl (NameError "name 'GaussianOutput' is not defined"))
  /\ (exists globals,
        exec_module []
          (module_imports
           ++ [ClassDef "MQRNNEstimator" ["ForkingSeq2SeqEstimator"]
                 [MQRNNEstimator_init_def]])%list
        = inr globals
        /\ bound globals "MQRNNEstimator" = true)
  /\ lookup_names (flat_map binds module_imports)
       (def_decorators MQRNNEstimator_init_def
        ++ def_defaults MQRNNEstimator_init_def
        ++ def_annotations MQRNNEstimator_init_def)%list
     = inr tt.
Proof.
  split; [intros rest; reflexivity|].
  split; [eexists; split; reflexivity | reflexivity].
Qed.

(** ** The arguments that are checked *)




